(** * Attendance registration: the page component, its report and the server port

  A shallow embedding of the page component [App] (the registration form,
  the summary and the printable report) and of the port selection of
  [server/index.ts], followed by the properties established for them.

  Conventions.
  - A JavaScript string is a Rocq [string]; each character stands for one
    code unit below 256.
  - An optional property ([gradeLevel?: string]) is an [option string];
    [None] is [undefined].
  - Values read from the host ([crypto.randomUUID()], [new Date()],
    the result of [window.open]) are arguments of the handler that reads
    them.
  - The component state held by [useState] and [useForm], with the text
    of the two inputs the role branch renders, is an explicit record
    threaded through the handlers by a small state-and-log monad; the log
    records the calls made on the browser. *)

From Stdlib Require Import String Ascii List Bool Arith ZArith Lia.
From Stdlib Require Import DecimalString DecimalNat.
Import ListNotations.
Local Open Scope string_scope.
Local Open Scope list_scope.

(** ** JavaScript helpers *)

Module Js.

(** [a ?? b] on an optional string. *)
Definition nullish (a : option string) (b : string) : string :=
  match a with
  | Some s => s
  | None => b
  end.

(** [`${n}`] for a non-negative integer: its decimal digits. *)
Definition string_of_index (n : nat) : string :=
  NilEmpty.string_of_uint (Nat.to_uint n).

(** [`${v}`] for an optional string: [undefined] prints as its name. *)
Definition string_of_optional (v : option string) : string :=
  match v with
  | Some s => s
  | None => "undefined"
  end.

(** [xs.map((x, index) => f(x, index))], indices counted from [start]. *)
Fixpoint mapi_from {A B : Type} (start : nat) (f : A -> nat -> B)
    (xs : list A) : list B :=
  match xs with
  | [] => []
  | x :: xs' => f x start :: mapi_from (S start) f xs'
  end.

Definition mapi {A B : Type} (f : A -> nat -> B) (xs : list A) : list B :=
  mapi_from 0 f xs.

(** [xs.join(sep)] with the empty separator. *)
Definition join (xs : list string) : string := String.concat EmptyString xs.

(** [!s] for a string: only the empty string is falsy. *)
Definition is_empty_string (s : string) : bool :=
  match s with
  | EmptyString => true
  | String _ _ => false
  end.

End Js.

Notation "a ?? b" := (Js.nullish a b) (at level 45, left associativity).

(** ** Regular expressions

  The one pattern of the form, [/\S+@\S+\.\S+/], is a value of [regex];
  [test] is [RegExp.prototype.test] for a pattern without flags: the
  pattern may match at any position of the subject. *)

Module Regexp.

Inductive regex : Type :=
| Fail
| Empty
| Char (c : ascii)
| NotSpace
| Seq (r1 r2 : regex)
| Alt (r1 r2 : regex)
| Star (r : regex).

(** [r+] *)
Definition Plus (r : regex) : regex := Seq r (Star r).

(** White space and line terminators among the code units below 256:
    TAB, LF, VT, FF, CR, SP and NBSP. [\S] is every other character. *)
Definition is_space (c : ascii) : bool :=
  let n := nat_of_ascii c in
  (((9 <=? n) && (n <=? 13)) || (n =? 32) || (n =? 160))%nat.

(** The strings a pattern matches in full. *)
Inductive matches : regex -> string -> Prop :=
| MEmpty : matches Empty EmptyString
| MChar : forall c, matches (Char c) (String c EmptyString)
| MNotSpace : forall c, is_space c = false -> matches NotSpace (String c EmptyString)
| MSeq : forall r1 r2 s1 s2,
    matches r1 s1 -> matches r2 s2 -> matches (Seq r1 r2) (s1 ++ s2)
| MAltL : forall r1 r2 s, matches r1 s -> matches (Alt r1 r2) s
| MAltR : forall r1 r2 s, matches r2 s -> matches (Alt r1 r2) s
| MStarNil : forall r, matches (Star r) EmptyString
| MStarApp : forall r s1 s2,
    matches r s1 -> matches (Star r) s2 -> matches (Star r) (s1 ++ s2).

Fixpoint nullable (r : regex) : bool :=
  match r with
  | Fail => false
  | Empty => true
  | Char _ => false
  | NotSpace => false
  | Seq r1 r2 => nullable r1 && nullable r2
  | Alt r1 r2 => nullable r1 || nullable r2
  | Star _ => true
  end.

(** What remains to be matched once [c] has been read. *)
Fixpoint deriv (c : ascii) (r : regex) : regex :=
  match r with
  | Fail => Fail
  | Empty => Fail
  | Char d => if Ascii.eqb c d then Empty else Fail
  | NotSpace => if is_space c then Fail else Empty
  | Seq r1 r2 =>
      if nullable r1
      then Alt (Seq (deriv c r1) r2) (deriv c r2)
      else Seq (deriv c r1) r2
  | Alt r1 r2 => Alt (deriv c r1) (deriv c r2)
  | Star r1 => Seq (deriv c r1) (Star r1)
  end.

(** Does the pattern match starting at the first character of [s]
    (and ending anywhere)? *)
Fixpoint match_here (s : string) (r : regex) {struct s} : bool :=
  nullable r ||
  match s with
  | EmptyString => false
  | String c s' => match_here s' (deriv c r)
  end.

(** Try every start position, left to right. *)
Fixpoint search (r : regex) (s : string) {struct s} : bool :=
  match_here s r ||
  match s with
  | EmptyString => false
  | String _ s' => search r s'
  end.

Definition test (r : regex) (s : string) : bool := search r s.

(** A run of one or more characters none of which is white space. *)
Fixpoint nonSpaces (s : string) : bool :=
  match s with
  | EmptyString => true
  | String c s' => negb (is_space c) && nonSpaces s'
  end.

Definition word (s : string) : bool :=
  match s with
  | EmptyString => false
  | String _ _ => nonSpaces s
  end.

End Regexp.

(** ** The page component *)

Module App.

Import Js Regexp.

(** *** Data *)

Inductive Role : Type := student | teacher.

Definition roles : list Role := [student; teacher].

Definition role_eqb (a b : Role) : bool :=
  match a, b with
  | student, student => true
  | teacher, teacher => true
  | _, _ => false
  end.

(** The string a [Role] is at run time. *)
Definition roleName (r : Role) : string :=
  match r with
  | student => "student"
  | teacher => "teacher"
  end.

Record Registration : Type := {
  id : string;
  role : Role;
  fullName : string;
  email : string;
  gradeLevel : option string;
  studentId : option string;
  subject : option string;
  employeeId : option string;
  createdAt : string
}.

Record RegistrationFormValues : Type := {
  v_role : Role;
  v_fullName : string;
  v_email : string;
  v_gradeLevel : option string;
  v_studentId : option string;
  v_subject : option string;
  v_employeeId : option string
}.

(** *** The report *)

(** The callback of [registrations.map] in [buildPrintableHtml]. *)
Definition rowHtml (registration : Registration) (index : nat) : string :=
  "
        <tr>
          <td>"
  ++ string_of_index (index + 1)
  ++ "</td>
          <td>"
  ++ fullName registration
  ++ "</td>
          <td>"
  ++ roleName (role registration)
  ++ "</td>
          <td>"
  ++ email registration
  ++ "</td>
          <td>"
  ++ (if role_eqb (role registration) student
   then gradeLevel registration ?? EmptyString
   else subject registration ?? EmptyString)
  ++ "</td>
          <td>"
  ++ (if role_eqb (role registration) student
   then studentId registration ?? EmptyString
   else employeeId registration ?? EmptyString)
  ++ "</td>
          <td>"
  ++ createdAt registration
  ++ "</td>
        </tr>
      ".

Definition buildPrintableHtml (today : string)
    (registrations : list Registration) : string :=
  let rows := join (mapi rowHtml registrations) in
  "
    <html>
      <head>
        <title>Registration Report</title>
        <style>
          body { font-family: Arial, sans-serif; padding: 24px; color: #111827; }
          h1 { margin: 0 0 8px; }
          p { margin: 0 0 16px; color: #4b5563; }
          table { width: 100%; border-collapse: collapse; font-size: 12px; }
          th, td { border: 1px solid #e5e7eb; padding: 8px; text-align: left; }
          th { background: #f3f4f6; }
        </style>
      </head>
      <body>
        <h1>Registration Report</h1>
        <p>Generated: "
  ++ today
  ++ "</p>
        <table>
          <thead>
            <tr>
              <th>#</th>
              <th>Name</th>
              <th>Role</th>
              <th>Email</th>
              <th>Grade/Subject</th>
              <th>ID</th>
              <th>Registered at</th>
            </tr>
          </thead>
          <tbody>
            "
  ++ rows
  ++ "
          </tbody>
        </table>
      </body>
    </html>
  ".

(** *** The summary *)

Record Summary : Type := {
  studentCount : nat;
  teacherCount : nat;
  total : nat
}.

Definition summary (registrations : list Registration) : Summary :=
  let studentCount :=
    length (filter (fun registration => role_eqb (role registration) student)
                   registrations) in
  let teacherCount :=
    length (filter (fun registration => role_eqb (role registration) teacher)
                   registrations) in
  {| studentCount := studentCount;
     teacherCount := teacherCount;
     total := length registrations |}.

(** *** The list of registrations as rendered

    One [article] per registration: the heading, which of the two
    subtitles is shown together with the value interpolated in it, and the
    three [span]s of the meta block. *)

Record ListItem : Type := {
  item_key : string;
  item_heading : string;
  item_subtitle : Role * string;
  item_meta : list string
}.

Definition listItem (registration : Registration) : ListItem :=
  {| item_key := id registration;
     item_heading := fullName registration;
     item_subtitle :=
       if role_eqb (role registration) student
       then (student, string_of_optional (gradeLevel registration))
       else (teacher, string_of_optional (subject registration));
     item_meta :=
       [ email registration;
         (if role_eqb (role registration) student
          then studentId registration ?? EmptyString
          else employeeId registration ?? EmptyString);
         createdAt registration ] |}.

(** *** The form

    The form is driven by react-hook-form: [useForm] with
    [defaultValues = { role: student }] and no other option, and one
    [register] call per input. Three things are kept apart.
    - The buffer of field values, a [RegistrationFormValues]: what
      [handleSubmit] passes to [onSubmit]. No [shouldUnregister] is passed,
      so the buffer keeps the value of an input that is no longer rendered.
    - The text the input elements show. The inputs are uncontrolled. The
      inputs of the name and of the email are elements of their own, whose
      text is the buffer's value at all times. The two branches of the role
      conditional have the same shape and no [key], so the page has one
      first and one second input there, under both roles: after a role
      change they still show the text they showed before.
    - Which fields hold their input element. A field takes its element the
      first time the element is handed to its [ref] callback: the buffer
      takes the element's text when it has no value for the field, and the
      element takes the buffer's value otherwise. A field that holds its
      element already is left alone. [reset] forgets every field. *)

Inductive Field : Type :=
| FullName | Email | GradeLevel | StudentId | Subject | EmployeeId.

Definition defaultValues : RegistrationFormValues :=
  {| v_role := student;
     v_fullName := EmptyString;
     v_email := EmptyString;
     v_gradeLevel := None;
     v_studentId := None;
     v_subject := None;
     v_employeeId := None |}.

(** [selectedRole === student ? ... : ...]: which inputs the form renders. *)
Definition rendered (selectedRole : Role) (f : Field) : bool :=
  match f with
  | FullName | Email => true
  | GradeLevel | StudentId => role_eqb selectedRole student
  | Subject | EmployeeId => negb (role_eqb selectedRole student)
  end.

(** The value the input of field [f] holds. *)
Definition fieldValue (values : RegistrationFormValues) (f : Field)
  : option string :=
  match f with
  | FullName => Some (v_fullName values)
  | Email => Some (v_email values)
  | GradeLevel => v_gradeLevel values
  | StudentId => v_studentId values
  | Subject => v_subject values
  | EmployeeId => v_employeeId values
  end.

(** The input of field [f] changes to [text]. *)
Definition setFieldValue (values : RegistrationFormValues) (f : Field)
    (text : string) : RegistrationFormValues :=
  match f with
  | FullName =>
      {| v_role := v_role values; v_fullName := text;
         v_email := v_email values; v_gradeLevel := v_gradeLevel values;
         v_studentId := v_studentId values; v_subject := v_subject values;
         v_employeeId := v_employeeId values |}
  | Email =>
      {| v_role := v_role values; v_fullName := v_fullName values;
         v_email := text; v_gradeLevel := v_gradeLevel values;
         v_studentId := v_studentId values; v_subject := v_subject values;
         v_employeeId := v_employeeId values |}
  | GradeLevel =>
      {| v_role := v_role values; v_fullName := v_fullName values;
         v_email := v_email values; v_gradeLevel := Some text;
         v_studentId := v_studentId values; v_subject := v_subject values;
         v_employeeId := v_employeeId values |}
  | StudentId =>
      {| v_role := v_role values; v_fullName := v_fullName values;
         v_email := v_email values; v_gradeLevel := v_gradeLevel values;
         v_studentId := Some text; v_subject := v_subject values;
         v_employeeId := v_employeeId values |}
  | Subject =>
      {| v_role := v_role values; v_fullName := v_fullName values;
         v_email := v_email values; v_gradeLevel := v_gradeLevel values;
         v_studentId := v_studentId values; v_subject := Some text;
         v_employeeId := v_employeeId values |}
  | EmployeeId =>
      {| v_role := v_role values; v_fullName := v_fullName values;
         v_email := v_email values; v_gradeLevel := v_gradeLevel values;
         v_studentId := v_studentId values; v_subject := v_subject values;
         v_employeeId := Some text |}
  end.

(** The role select changes to [r]. *)
Definition setRole (values : RegistrationFormValues) (r : Role)
  : RegistrationFormValues :=
  {| v_role := r; v_fullName := v_fullName values;
     v_email := v_email values; v_gradeLevel := v_gradeLevel values;
     v_studentId := v_studentId values; v_subject := v_subject values;
     v_employeeId := v_employeeId values |}.

(** The rules passed to [register]. *)
Record RegisterOptions : Type := {
  required : string;
  pattern : option (regex * string)
}.

(** [/\S+@\S+\.\S+/] *)
Definition emailPattern : regex :=
  Seq (Plus NotSpace)
      (Seq (Char "@")
           (Seq (Plus NotSpace)
                (Seq (Char ".") (Plus NotSpace)))).

Definition registerOptions (f : Field) : RegisterOptions :=
  match f with
  | FullName =>
      {| required := "Full name is required"; pattern := None |}
  | Email =>
      {| required := "Email is required";
         pattern := Some (emailPattern, "Enter a valid email") |}
  | GradeLevel =>
      {| required := "Grade level is required"; pattern := None |}
  | StudentId =>
      {| required := "Student ID is required"; pattern := None |}
  | Subject =>
      {| required := "Subject focus is required"; pattern := None |}
  | EmployeeId =>
      {| required := "Employee ID is required"; pattern := None |}
  end.

(** The two inputs of the role branch. *)
Inductive Slot : Type := FirstInput | SecondInput.

(** The input a field is rendered in: an input of its own for the name and
    the email ([None]), the first or the second input of the role branch
    for the others. *)
Definition slot (f : Field) : option Slot :=
  match f with
  | FullName | Email => None
  | GradeLevel | Subject => Some FirstInput
  | StudentId | EmployeeId => Some SecondInput
  end.

(** The text the two inputs of the role branch show. *)
Record BranchInputs : Type := {
  firstInput : string;
  secondInput : string
}.

Definition slotText (shown : BranchInputs) (s : Slot) : string :=
  match s with
  | FirstInput => firstInput shown
  | SecondInput => secondInput shown
  end.

Definition setSlotText (shown : BranchInputs) (s : Slot) (text : string)
  : BranchInputs :=
  match s with
  | FirstInput =>
      {| firstInput := text; secondInput := secondInput shown |}
  | SecondInput =>
      {| firstInput := firstInput shown; secondInput := text |}
  end.

(** The text the element of field [f] shows. *)
Definition elementText (values : RegistrationFormValues)
    (shown : BranchInputs) (f : Field) : string :=
  match slot f with
  | None => fieldValue values f ?? EmptyString
  | Some s => slotText shown s
  end.

(** The library's check of one rendered input, from the buffer's value
    and the element's text. The input is empty when the element shows
    nothing or the value is the empty string; [required] fails on an empty
    input and on a missing value; otherwise [pattern] fails when the value
    does not match. The result is the message of the first rule that
    fails. *)
Definition validateField (options : RegisterOptions) (value : option string)
    (element : string) : option string :=
  let isEmpty :=
    is_empty_string element ||
    match value with
    | Some text => is_empty_string text
    | None => false
    end in
  match value with
  | None => Some (required options)
  | Some text =>
      if isEmpty then Some (required options)
      else
        match pattern options with
        | Some (re, message) =>
            if test re text then None else Some message
        | None => None
        end
  end.

(** [formState.errors]: a message per field in error. *)
Definition FieldErrors : Type := Field -> option string.

Definition noErrors : FieldErrors := fun _ => None.

Definition allFields : list Field :=
  [FullName; Email; GradeLevel; StudentId; Subject; EmployeeId].

(** Every rendered input is checked; an input that is not rendered is not. *)
Definition validate (values : RegistrationFormValues) (shown : BranchInputs)
  : FieldErrors :=
  fun f =>
    if rendered (v_role values) f
    then validateField (registerOptions f) (fieldValue values f)
           (elementText values shown f)
    else None.

Definition isValid (values : RegistrationFormValues) (shown : BranchInputs)
  : bool :=
  forallb (fun f => match validate values shown f with
                    | None => true
                    | Some _ => false
                    end) allFields.

(** *** Component state and handlers

    [registrations] is the list held by [useState]; [form] is the buffer of
    [useForm]; [shown] is the text of the two inputs of the role branch;
    [attached] tells which fields hold their input element; [errors] is
    [formState.errors] as the last submission or reset left it. The library
    checks a field again while it is edited after a failed submission; that
    is left out, no handler of the component reads the errors. *)

Record AppState : Type := {
  registrations : list Registration;
  form : RegistrationFormValues;
  shown : BranchInputs;
  attached : Field -> bool;
  errors : FieldErrors
}.

Definition field_eqb (a b : Field) : bool :=
  match a, b with
  | FullName, FullName | Email, Email | GradeLevel, GradeLevel
  | StudentId, StudentId | Subject, Subject | EmployeeId, EmployeeId => true
  | _, _ => false
  end.

(** The [ref] callback of field [f] receives its element. *)
Definition attachField (f : Field) (st : AppState) : AppState :=
  if attached st f then st
  else
    let attached' := fun g => field_eqb g f || attached st g in
    match slot f with
    | None =>
        {| registrations := registrations st;
           form := form st;
           shown := shown st;
           attached := attached';
           errors := errors st |}
    | Some s =>
        match fieldValue (form st) f with
        | None =>
            {| registrations := registrations st;
               form := setFieldValue (form st) f (slotText (shown st) s);
               shown := shown st;
               attached := attached';
               errors := errors st |}
        | Some value =>
            {| registrations := registrations st;
               form := form st;
               shown := setSlotText (shown st) s value;
               attached := attached';
               errors := errors st |}
        end
    end.

(** A render of the form, with the [ref] callbacks that follow it: those of
    the inputs the selected role renders. *)
Definition renderForm (st : AppState) : AppState :=
  fold_left
    (fun st' f =>
       if rendered (v_role (form st')) f then attachField f st' else st')
    allFields st.

(** Calls made on the browser by [handleDownload], in order.
    [WindowOpen created] is [window.open] returning a window ([true]) or
    [null] ([false]). *)
Inductive BrowserCall : Type :=
| WindowOpen (created : bool)
| DocumentOpen
| DocumentWrite (html : string)
| DocumentClose
| WindowFocus
| WindowPrint
| WindowClose.

(** A handler reads and updates the component state and logs its calls. *)
Definition Handler (A : Type) : Type :=
  AppState -> A * AppState * list BrowserCall.

Definition ret {A : Type} (a : A) : Handler A :=
  fun st => (a, st, []).

Definition bind {A B : Type} (m : Handler A) (k : A -> Handler B)
  : Handler B :=
  fun st =>
    let '(a, st1, log1) := m st in
    let '(b, st2, log2) := k a st1 in
    (b, st2, log1 ++ log2).

Notation "x <- m ;; k" := (bind m (fun x => k))
  (at level 61, m at next level, right associativity).
Notation "m ;; k" := (bind m (fun _ => k))
  (at level 61, right associativity).

Definition getRegistrations : Handler (list Registration) :=
  fun st => (registrations st, st, []).

Definition getValues : Handler RegistrationFormValues :=
  fun st => (form st, st, []).

Definition getShown : Handler BranchInputs :=
  fun st => (shown st, st, []).

(** [setRegistrations((prev) => update(prev))] *)
Definition setRegistrations
    (update : list Registration -> list Registration) : Handler unit :=
  fun st =>
    (tt,
     {| registrations := update (registrations st);
        form := form st;
        shown := shown st;
        attached := attached st;
        errors := errors st |},
     []).

(** A change event on the select: the buffer takes the new value. *)
Definition setValues (values : RegistrationFormValues) : Handler unit :=
  fun st =>
    (tt,
     {| registrations := registrations st;
        form := values;
        shown := shown st;
        attached := attached st;
        errors := errors st |},
     []).

(** A change event on the input of field [f]: the element shows [text] and
    the buffer takes it. *)
Definition typeText (f : Field) (text : string) : Handler unit :=
  fun st =>
    (tt,
     {| registrations := registrations st;
        form := setFieldValue (form st) f text;
        shown :=
          match slot f with
          | None => shown st
          | Some s => setSlotText (shown st) s text
          end;
        attached := attached st;
        errors := errors st |},
     []).

Definition setErrors (errs : FieldErrors) : Handler unit :=
  fun st =>
    (tt,
     {| registrations := registrations st;
        form := form st;
        shown := shown st;
        attached := attached st;
        errors := errs |},
     []).

(** [reset(values)]: the buffer becomes [values], the errors are cleared
    and every field is forgotten; the elements are not touched. *)
Definition reset (values : RegistrationFormValues) : Handler unit :=
  fun st =>
    (tt,
     {| registrations := registrations st;
        form := values;
        shown := shown st;
        attached := fun _ => false;
        errors := noErrors |},
     []).

(** The render that follows a change of state. *)
Definition render : Handler unit :=
  fun st => (tt, renderForm st, []).

Definition call (c : BrowserCall) : Handler unit :=
  fun st => (tt, st, [c]).

(** [window.open(..)]; [created] tells whether the host lets the window
    open. *)
Definition windowOpen (created : bool) : Handler bool :=
  fun st => (created, st, [WindowOpen created]).

(** [onSubmit]; [uuid] is [crypto.randomUUID()] and [now] is
    [new Date().toLocaleString()]. *)
Definition onSubmit (uuid now : string) (data : RegistrationFormValues)
  : Handler unit :=
  let entry : Registration :=
    {| id := uuid;
       createdAt := now;
       role := v_role data;
       fullName := v_fullName data;
       email := v_email data;
       gradeLevel := v_gradeLevel data;
       studentId := v_studentId data;
       subject := v_subject data;
       employeeId := v_employeeId data |} in
  setRegistrations (fun prev => entry :: prev) ;;
  reset {| v_role := v_role data;
           v_fullName := EmptyString;
           v_email := EmptyString;
           v_gradeLevel := Some EmptyString;
           v_studentId := Some EmptyString;
           v_subject := Some EmptyString;
           v_employeeId := Some EmptyString |}.

(** [handleSubmit(onValid)]: the rendered inputs are checked; [onValid]
    runs on the buffer when none is in error, and the errors are published
    otherwise. *)
Definition handleSubmit
    (onValid : RegistrationFormValues -> Handler unit) : Handler unit :=
  values <- getValues ;;
  inputs <- getShown ;;
  if isValid values inputs
  then onValid values
  else setErrors (validate values inputs).

(** [handleDownload]; [created] is whether [window.open] yields a window
    and [today] is [new Date().toLocaleDateString()] at that time. *)
Definition handleDownload (created : bool) (today : string) : Handler unit :=
  registrations <- getRegistrations ;;
  if (length registrations =? 0)%nat
  then ret tt
  else
    printWindow <- windowOpen created ;;
    if negb printWindow
    then ret tt
    else
      call DocumentOpen ;;
      call (DocumentWrite (buildPrintableHtml today registrations)) ;;
      call DocumentClose ;;
      call WindowFocus ;;
      call WindowPrint ;;
      call WindowClose.

(** *** Events

    What the user can do on the page. An input that is not rendered cannot
    be typed into: such an event leaves the page as it is. The button of the
    report is disabled while the list is empty; [handleDownload] is modelled
    for every list all the same.

    The page renders again after a role change and after a submission that
    was accepted, and the [ref] callbacks of the rendered inputs run. A
    render that follows another event meets only fields that hold their
    element, and changes nothing. *)

Inductive Event : Type :=
| ChangeRole (r : Role)
| Input (f : Field) (text : string)
| Submit (uuid now : string)
| Download (created : bool) (today : string).

Definition handle (e : Event) : Handler unit :=
  match e with
  | ChangeRole r =>
      values <- getValues ;;
      setValues (setRole values r) ;;
      render
  | Input f text =>
      values <- getValues ;;
      if rendered (v_role values) f
      then typeText f text
      else ret tt
  | Submit uuid now =>
      handleSubmit (fun data => onSubmit uuid now data ;; render)
  | Download created today => handleDownload created today
  end.

(** The page before its first render: the buffer holds the default values,
    the inputs are empty and no field holds an element. *)
Definition beforeMount : AppState :=
  {| registrations := [];
     form := defaultValues;
     shown := {| firstInput := EmptyString; secondInput := EmptyString |};
     attached := fun _ => false;
     errors := noErrors |}.

(** The page after its first render. *)
Definition initialState : AppState := renderForm beforeMount.

Definition step (st : AppState) (e : Event) : AppState * list BrowserCall :=
  let '(_, st', log) := handle e st in (st', log).

(** The state after a sequence of events, oldest first. *)
Fixpoint run (st : AppState) (events : list Event) : AppState :=
  match events with
  | [] => st
  | e :: events' => run (fst (step st e)) events'
  end.

(** How many of the submissions in [events] pass validation. *)
Fixpoint validSubmissions (st : AppState) (events : list Event) : nat :=
  match events with
  | [] => 0
  | e :: events' =>
      (match e with
       | Submit _ _ => if isValid (form st) (shown st) then 1 else 0
       | _ => 0
       end) + validSubmissions (fst (step st e)) events'
  end.

End App.

(** ** The server port *)

Module Server.

(** The value of a text made of decimal digits only; the empty text is
    zero. *)
Definition digitValue (c : ascii) : option Z :=
  let n := nat_of_ascii c in
  if ((48 <=? n) && (n <=? 57))%nat then Some (Z.of_nat n - 48)%Z else None.

Fixpoint decimalValue (acc : Z) (text : string) : option Z :=
  match text with
  | EmptyString => Some acc
  | String c text' =>
      match digitValue c with
      | Some d => decimalValue (10 * acc + d)%Z text'
      | None => None
      end
  end.

(** The results of [Number(..)] that occur here: [NaN] or an integer. *)
Inductive JsNumber : Type :=
| NaN
| Num (value : Z).

(** The integers every one of which is a number of the language exactly. *)
Definition maxExact : Z := 2 ^ 53.

(** [Number(process.env.PORT)] where this development covers it: the
    variable is unset ([undefined], whose number is [NaN]) or holds decimal
    digits only, of a value up to [maxExact], which is then the number.
    [None] is a text that is not covered (signs, fractions, exponents, other
    radices, white space, other characters, larger values). *)
Definition Number (variable : option string) : option JsNumber :=
  match variable with
  | None => Some NaN
  | Some text =>
      match decimalValue 0 text with
      | Some value =>
          if (value <=? maxExact)%Z then Some (Num value) else None
      | None => None
      end
  end.

(** [a || b] on numbers: [NaN] and zero are falsy. *)
Definition orElse (a : JsNumber) (b : Z) : Z :=
  match a with
  | NaN => b
  | Num value => if (value =? 0)%Z then b else value
  end.

(** [const port = Number(process.env.PORT) || 5000], where [Number] is
    covered. *)
Definition port (PORT : option string) : option Z :=
  option_map (fun n => orElse n 5000) (Number PORT).

(** *** The number of every text

    [port] above answers where the number of PORT is a plain integer. What
    follows is the same expression with the number of every text: the text
    is trimmed of white space and read as a numeric literal of the
    language (an empty text, a decimal literal with an optional sign,
    fraction and exponent, [Infinity] with an optional sign, or a binary,
    octal or hexadecimal integer without sign); any other text is not a
    number. A finite number is kept as written, sign, significand and
    exponent, for the number of the language nearest to
    [significand * 10 ^ exponent]; the rounding is left implicit. *)

Inductive Numeric : Type :=
| NotANumber
| Infinite (negative : bool)
| Nearest (negative : bool) (significand exponent : Z).

Definition isDigit (c : ascii) : bool :=
  match digitValue c with
  | Some _ => true
  | None => false
  end.

Fixpoint allDigits (text : string) : bool :=
  match text with
  | EmptyString => true
  | String c text' => isDigit c && allDigits text'
  end.

(** The decimal digits [text] starts with, and what follows them. *)
Fixpoint digitsOf (text : string) : string * string :=
  match text with
  | EmptyString => (EmptyString, EmptyString)
  | String c text' =>
      if isDigit c
      then let '(digits, rest) := digitsOf text' in (String c digits, rest)
      else (EmptyString, text)
  end.

Fixpoint trimStart (text : string) : string :=
  match text with
  | EmptyString => EmptyString
  | String c text' =>
      if Regexp.is_space c then trimStart text' else text
  end.

Fixpoint trimEnd (text : string) : string :=
  match text with
  | EmptyString => EmptyString
  | String c text' =>
      match trimEnd text' with
      | EmptyString =>
          if Regexp.is_space c then EmptyString else String c EmptyString
      | String d rest => String c (String d rest)
      end
  end.

Definition trim (text : string) : string := trimEnd (trimStart text).

(** The value of a digit in a radix of 2, 8 or 16. *)
Definition radixDigit (radix : Z) (c : ascii) : option Z :=
  let n := Z.of_nat (nat_of_ascii c) in
  let value :=
    if ((48 <=? n) && (n <=? 57))%Z then Some (n - 48)%Z
    else if ((97 <=? n) && (n <=? 102))%Z then Some (n - 87)%Z
    else if ((65 <=? n) && (n <=? 70))%Z then Some (n - 55)%Z
    else None in
  match value with
  | Some v => if (v <? radix)%Z then Some v else None
  | None => None
  end.

Fixpoint radixValue (radix acc : Z) (text : string) : option Z :=
  match text with
  | EmptyString => Some acc
  | String c text' =>
      match radixDigit radix c with
      | Some d => radixValue radix (radix * acc + d)%Z text'
      | None => None
      end
  end.

(** The radix a prefix letter stands for: [0x], [0o], [0b], in either
    case. *)
Definition radixOf (c : ascii) : option Z :=
  if Ascii.eqb c "x" || Ascii.eqb c "X" then Some 16%Z
  else if Ascii.eqb c "o" || Ascii.eqb c "O" then Some 8%Z
  else if Ascii.eqb c "b" || Ascii.eqb c "B" then Some 2%Z
  else None.

(** A binary, octal or hexadecimal integer literal. *)
Definition nonDecimal (text : string) : option Z :=
  match text with
  | String zero (String letter digits) =>
      if Ascii.eqb zero "0"
      then
        match radixOf letter with
        | Some radix =>
            if Js.is_empty_string digits then None
            else radixValue radix 0 digits
        | None => None
        end
      else None
  | _ => None
  end.

(** One or more decimal digits. *)
Definition unsignedInteger (text : string) : option Z :=
  if Js.is_empty_string text then None else decimalValue 0 text.

Definition signedInteger (text : string) : option Z :=
  match text with
  | String c text' =>
      if Ascii.eqb c "+" then unsignedInteger text'
      else if Ascii.eqb c "-" then option_map Z.opp (unsignedInteger text')
      else unsignedInteger text
  | EmptyString => None
  end.

(** The exponent part, which may be missing. *)
Definition exponentPart (text : string) : option Z :=
  match text with
  | EmptyString => Some 0%Z
  | String c text' =>
      if Ascii.eqb c "e" || Ascii.eqb c "E"
      then signedInteger text'
      else None
  end.

(** An unsigned decimal literal: digits, a fraction and an exponent, with
    a digit before or after the dot. The result is the significand and the
    exponent. *)
Definition unsignedDecimal (text : string) : option (Z * Z) :=
  let '(whole, rest) := digitsOf text in
  let '(fraction, rest') :=
    match rest with
    | String c afterDot =>
        if Ascii.eqb c "." then digitsOf afterDot else (EmptyString, rest)
    | EmptyString => (EmptyString, rest)
    end in
  if Js.is_empty_string whole && Js.is_empty_string fraction then None
  else
    match decimalValue 0 (whole ++ fraction), exponentPart rest' with
    | Some significand, Some exponent =>
        Some (significand, (exponent - Z.of_nat (String.length fraction))%Z)
    | _, _ => None
    end.

Definition unsignedLiteral (negative : bool) (text : string) : Numeric :=
  if String.eqb text "Infinity" then Infinite negative
  else
    match unsignedDecimal text with
    | Some (significand, exponent) => Nearest negative significand exponent
    | None => NotANumber
    end.

(** The number of a text. *)
Definition StringToNumber (text : string) : Numeric :=
  match trim text with
  | EmptyString => Nearest false 0 0
  | String c rest =>
      match nonDecimal (String c rest) with
      | Some value => Nearest false value 0
      | None =>
          if Ascii.eqb c "+" then unsignedLiteral false rest
          else if Ascii.eqb c "-" then unsignedLiteral true rest
          else unsignedLiteral false (String c rest)
      end
  end.

(** [Number(v)] for a variable that may be unset. *)
Definition ToNumber (variable : option string) : Numeric :=
  match variable with
  | None => NotANumber
  | Some text => StringToNumber text
  end.

(** The number nearest to [significand * 10 ^ exponent] is zero: the value
    is at most [2 ^ -1075], half the least positive number. *)
Definition roundsToZero (significand exponent : Z) : bool :=
  ((significand =? 0) ||
   ((exponent <? 0) &&
    (significand * 2 ^ 1075 <=? 10 ^ (- exponent))))%Z.

(** The numbers that count as false: [NaN] and the two zeros. *)
Definition isFalsy (n : Numeric) : bool :=
  match n with
  | NotANumber => true
  | Infinite _ => false
  | Nearest _ significand exponent => roundsToZero significand exponent
  end.

(** No numeric literal starts with [c], and [c] is no white space: [c] is
    no digit, sign or dot and is not the first letter of [Infinity]. *)
Definition opensNoNumber (c : ascii) : bool :=
  negb (Regexp.is_space c || isDigit c || Ascii.eqb c "+" ||
        Ascii.eqb c "-" || Ascii.eqb c "." || Ascii.eqb c "I").

Fixpoint allSpaces (text : string) : bool :=
  match text with
  | EmptyString => true
  | String c text' => Regexp.is_space c && allSpaces text'
  end.

(** [Number(process.env.PORT) || 5000], for every PORT. *)
Definition listenPort (PORT : option string) : Numeric :=
  let n := ToNumber PORT in
  if isFalsy n then Nearest false 5000 0 else n.

End Server.

(** ** Reading the report and the registrations

    Definitions used to state properties: what a reader of the generated
    document finds in it, and what the specification says a registration and
    a report hold. *)

Module Reading.

Import Js App.

(** [text.startsWith(part)]. *)
Fixpoint startsWith (text part : string) {struct part} : bool :=
  match part with
  | EmptyString => true
  | String p part' =>
      match text with
      | EmptyString => false
      | String c text' => Ascii.eqb c p && startsWith text' part'
      end
  end.

(** [text.includes(part)]: [part] occurs in [text] as a run of consecutive
    characters. *)
Fixpoint includes (text part : string) {struct text} : bool :=
  startsWith text part ||
  match text with
  | EmptyString => false
  | String _ text' => includes text' part
  end.










(** The grade or subject, and the identifier, that go with the role. *)
Definition gradeOrSubject (r : Registration) : string :=
  match role r with
  | student => gradeLevel r ?? EmptyString
  | teacher => subject r ?? EmptyString
  end.

Definition identifier (r : Registration) : string :=
  match role r with
  | student => studentId r ?? EmptyString
  | teacher => employeeId r ?? EmptyString
  end.

(** The seven columns of the row numbered [number]. *)
Definition reportCells (number : nat) (r : Registration) : list string :=
  [ string_of_index number; fullName r; roleName (role r); email r;
    gradeOrSubject r; identifier r; createdAt r ].

(** The table of the specification: one row per registration, in the order
    of the list, numbered from [first]. *)
Fixpoint reportTableFrom (first : nat) (registrations : list Registration)
  : list (list string) :=
  match registrations with
  | [] => []
  | r :: registrations' =>
      reportCells first r :: reportTableFrom (S first) registrations'
  end.

Definition reportTable (registrations : list Registration)
  : list (list string) :=
  reportTableFrom 1 registrations.

(** A cell, and a row of cells, as markup. *)
Definition cellMarkup (cell : string) : string :=
  "<td>" ++ cell ++ "</td>".

Definition newline : string := String "010" EmptyString.

(** The line of a cell in a row, followed by the rest of the row. *)
Definition cellLine (cell rest : string) : string :=
  "          " ++ "<td>" ++ cell ++ "</td>" ++ newline ++ rest.

Definition rowMarkup (cells : list string) : string :=
  newline ++ "        " ++ "<tr>" ++ newline ++
  fold_right cellLine ("        " ++ "</tr>" ++ newline ++ "      ")%string
    cells.

(** A field is populated when it is present and not empty. *)
Definition populated (v : option string) : bool :=
  match v with
  | Some text => negb (is_empty_string text)
  | None => false
  end.

Definition studentPair (r : Registration) : bool :=
  populated (gradeLevel r) && populated (studentId r).

Definition teacherPair (r : Registration) : bool :=
  populated (subject r) && populated (employeeId r).

(** Exactly one pair is populated, the one of the role. *)
Definition exactlyOnePair (r : Registration) : bool :=
  match role r with
  | student => studentPair r && negb (teacherPair r)
  | teacher => teacherPair r && negb (studentPair r)
  end.

(** The pair of the role is populated. *)
Definition rolePair (r : Registration) : bool :=
  match role r with
  | student => studentPair r
  | teacher => teacherPair r
  end.

(** [r] with the pair that is not the one of its role replaced. *)
Definition withOtherPair (r : Registration) (a b : option string)
  : Registration :=
  match role r with
  | student =>
      {| id := id r; role := role r; fullName := fullName r;
         email := email r; gradeLevel := gradeLevel r;
         studentId := studentId r; subject := a; employeeId := b;
         createdAt := createdAt r |}
  | teacher =>
      {| id := id r; role := role r; fullName := fullName r;
         email := email r; gradeLevel := a; studentId := b;
         subject := subject r; employeeId := employeeId r;
         createdAt := createdAt r |}
  end.

(** A student fills the grade level and the student identifier, switches the
    role, and registers as a teacher. *)
Definition roleChangeEvents : list Event :=
  [ Input GradeLevel "10"; Input StudentId "STU-2045";
    ChangeRole teacher;
    Input FullName "Jordan Lee"; Input Email "jordan@school.edu";
    Input Subject "Mathematics"; Input EmployeeId "EMP-8820";
    Submit "id-1" "1/2/2026, 9:00:00 AM" ].

(** The entry [onSubmit] builds from the submitted values. *)
Definition registrationOf (uuid now : string) (data : RegistrationFormValues)
  : Registration :=
  {| id := uuid; role := v_role data; fullName := v_fullName data;
     email := v_email data; gradeLevel := v_gradeLevel data;
     studentId := v_studentId data; subject := v_subject data;
     employeeId := v_employeeId data; createdAt := now |}.

(** A buffer with the given role and every text empty. *)
Definition blank (r : Role) : RegistrationFormValues :=
  {| v_role := r;
     v_fullName := EmptyString;
     v_email := EmptyString;
     v_gradeLevel := Some EmptyString;
     v_studentId := Some EmptyString;
     v_subject := Some EmptyString;
     v_employeeId := Some EmptyString |}.

(** Two registrations, a teacher and then a student, as a list holds them
    (newest first), and one whose name is markup. *)
Definition sampleTeacher : Registration :=
  {| id := "id-2"; role := teacher; fullName := "Ann Smith";
     email := "ann@school.edu"; gradeLevel := Some EmptyString;
     studentId := Some EmptyString; subject := Some "Mathematics";
     employeeId := Some "EMP-8820"; createdAt := "1/2/2026, 9:05:00 AM" |}.



Definition markupStudent : Registration :=
  {| id := "id-3"; role := student; fullName := "<b>Ann & Bob</b>";
     email := "a&b@school.edu"; gradeLevel := Some "<10>";
     studentId := Some "STU-1"; subject := None;
     employeeId := None; createdAt := "1/2/2026, 9:10:00 AM" |}.

(** The user fills the form of the specification's first testable
    property, and the page after that. *)
Definition jordanInputs : list Event :=
  [ Input FullName "Jordan Lee"; Input Email "jordan@school.edu";
    Input GradeLevel "10"; Input StudentId "STU-2045" ].

Definition jordanFilled : AppState := run initialState jordanInputs.

(** The same form with the email of the second testable property. *)
Definition badEmailFilled : AppState :=
  run initialState
    [ Input FullName "Jordan Lee"; Input Email "not-an-email";
      Input GradeLevel "10"; Input StudentId "STU-2045" ].

(** The submission of the specification's first testable property. *)
Definition jordan : RegistrationFormValues :=
  {| v_role := student;
     v_fullName := "Jordan Lee";
     v_email := "jordan@school.edu";
     v_gradeLevel := Some "10";
     v_studentId := Some "STU-2045";
     v_subject := None;
     v_employeeId := None |}.

(** The page as an accepted submission leaves it before it renders again,
    and as a rejected submission leaves it. *)
Definition submitted (uuid now : string) (st : AppState) : AppState :=
  {| registrations := registrationOf uuid now (form st) :: registrations st;
     form := blank (v_role (form st));
     shown := shown st;
     attached := fun _ => false;
     errors := noErrors |}.

Definition refused (st : AppState) : AppState :=
  {| registrations := registrations st;
     form := form st;
     shown := shown st;
     attached := attached st;
     errors := validate (form st) (shown st) |}.

(** What a render never touches: the list, the errors, the role, the name
    and the email. *)
Definition sameFrame (st st' : AppState) : Prop :=
  registrations st' = registrations st /\
  errors st' = errors st /\
  v_role (form st') = v_role (form st) /\
  v_fullName (form st') = v_fullName (form st) /\
  v_email (form st') = v_email (form st).

(** The page is settled when every input the role renders is held by its
    field. *)
Definition settled (st : AppState) : Prop :=
  forall f, rendered (v_role (form st)) f = true -> attached st f = true.

(** A student fills the grade level and the student identifier, looks at
    the teacher form, empties its first input, comes back to the student
    form and fills the name and the email. The buffer still holds the grade
    level; the first input, the one the subject was emptied in, shows
    nothing. *)
Definition staleGradeEvents : list Event :=
  [ Input GradeLevel "10"; Input StudentId "STU-2045";
    ChangeRole teacher;
    Input Subject EmptyString;
    ChangeRole student;
    Input FullName "Jordan Lee"; Input Email "jordan@school.edu" ].

Definition staleGrade : AppState := run initialState staleGradeEvents.


End Reading.

(** * Properties *)

(** ** The rest of the page: the list section, the report button, and the
    history of a session *)

Module Page.

Import Js App Reading.

(** The list section: the articles of the registrations, or a notice while
    the list is empty. *)
Inductive ListView : Type :=
| EmptyNotice (text : string)
| Articles (items : list ListItem).

Definition listView (registrations : list Registration) : ListView :=
  if (length registrations =? 0)%nat
  then EmptyNotice
         "Registrations will appear here after you submit the form."
  else Articles (map listItem registrations).

(** The [disabled] attribute of the report button. *)
Definition downloadDisabled (registrations : list Registration) : bool :=
  (length registrations =? 0)%nat.

(** The entries [onSubmit] builds over a sequence of events, oldest first:
    one per submission that passes validation. *)
Fixpoint acceptedEntries (st : AppState) (events : list Event)
  : list Registration :=
  match events with
  | [] => []
  | e :: events' =>
      (match e with
       | Submit uuid now =>
           if isValid (form st) (shown st)
           then [registrationOf uuid now (form st)]
           else []
       | _ => []
       end) ++ acceptedEntries (fst (step st e)) events'
  end.

(** The identifiers the host hands out over a sequence of events, one per
    submission. *)
Fixpoint submittedIds (events : list Event) : list string :=
  match events with
  | [] => []
  | Submit uuid _ :: events' => uuid :: submittedIds events'
  | _ :: events' => submittedIds events'
  end.

(** [values] with the pair that its role does not render replaced. *)
Definition setOtherPair (values : RegistrationFormValues)
    (a b : option string) : RegistrationFormValues :=
  match v_role values with
  | student =>
      {| v_role := v_role values; v_fullName := v_fullName values;
         v_email := v_email values; v_gradeLevel := v_gradeLevel values;
         v_studentId := v_studentId values; v_subject := a;
         v_employeeId := b |}
  | teacher =>
      {| v_role := v_role values; v_fullName := v_fullName values;
         v_email := v_email values; v_gradeLevel := a;
         v_studentId := b; v_subject := v_subject values;
         v_employeeId := v_employeeId values |}
  end.

(** A teacher fills every field, after having filled the student pair. *)
Definition teacherFilled : AppState :=
  run initialState (removelast roleChangeEvents).

(** A teacher fills the name, the email and the employee identifier, and
    leaves the subject out. *)
Definition teacherWithoutSubject : AppState :=
  run initialState
    [ ChangeRole teacher;
      Input FullName "Ann Smith"; Input Email "ann@school.edu";
      Input EmployeeId "EMP-8820" ].

(** Two people register one after the other. *)
Definition twoSubmissions : list Event :=
  jordanInputs ++ [ Submit "id-1" "1/2/2026, 9:00:00 AM" ] ++
  [ ChangeRole teacher;
    Input FullName "Ann Smith"; Input Email "ann@school.edu";
    Input Subject "Mathematics"; Input EmployeeId "EMP-8820";
    Submit "id-2" "1/2/2026, 9:05:00 AM" ].


End Page.

(** ** Strings *)

Module StringFacts.

Lemma append_assoc (a b c : string) :
  ((a ++ b) ++ c)%string = (a ++ (b ++ c))%string.
Proof.
  induction a as [|x a IH]; simpl; [reflexivity | rewrite IH; reflexivity].
Qed.

Lemma append_empty_r (a : string) : (a ++ EmptyString)%string = a.
Proof.
  induction a as [|x a IH]; simpl; [reflexivity | rewrite IH; reflexivity].
Qed.

Lemma append_empty (a b : string) :
  (a ++ b)%string = EmptyString -> a = EmptyString /\ b = EmptyString.
Proof. destruct a; simpl; intros H; [auto | discriminate]. Qed.

End StringFacts.

(** ** The regular expression matcher *)

Module RegexpFacts.

Import Regexp App StringFacts.

(** *** The matcher finds the matches of a pattern *)

Lemma nullable_matches (r : regex) :
  nullable r = true -> matches r EmptyString.
Proof.
  induction r; simpl; intros H; try discriminate.
  - constructor.
  - apply andb_true_iff in H. destruct H as [H1 H2].
    apply (MSeq r1 r2 EmptyString EmptyString); auto.
  - apply orb_true_iff in H. destruct H as [H|H];
      [apply MAltL | apply MAltR]; auto.
  - constructor.
Qed.

Lemma matches_nullable (r : regex) (s : string) :
  matches r s -> s = EmptyString -> nullable r = true.
Proof.
  induction 1; intros E; simpl; try discriminate; try reflexivity.
  - apply append_empty in E. destruct E as [E1 E2].
    rewrite IHmatches1, IHmatches2; auto.
  - rewrite IHmatches; auto.
  - rewrite IHmatches; auto using orb_true_r.
Qed.

Lemma nullable_spec (r : regex) :
  nullable r = true <-> matches r EmptyString.
Proof.
  split; [apply nullable_matches | intros H; eapply matches_nullable; eauto].
Qed.

Lemma matches_deriv (r : regex) (s0 : string) :
  matches r s0 ->
  forall a t, s0 = String a t -> matches (deriv a r) t.
Proof.
  induction 1 as [ | c | c Hc | r1 r2 s1 s2 H1 IH1 H2 IH2
                 | r1 r2 s H IH | r1 r2 s H IH
                 | r | r s1 s2 H1 IH1 H2 IH2 ];
    intros a t E; simpl.
  - discriminate.
  - injection E as -> <-. rewrite Ascii.eqb_refl. constructor.
  - injection E as -> <-. rewrite Hc. constructor.
  - destruct s1 as [|b s1]; simpl in E.
    + assert (Hn : nullable r1 = true)
        by (eapply matches_nullable; eauto).
      rewrite Hn. apply MAltR. apply IH2, E.
    + injection E as -> <-.
      assert (Hs : matches (Seq (deriv a r1) r2) (s1 ++ s2))
        by (constructor; auto).
      destruct (nullable r1); [apply MAltL|]; exact Hs.
  - apply MAltL. auto.
  - apply MAltR. auto.
  - discriminate.
  - destruct s1 as [|b s1]; simpl in E.
    + apply IH2, E.
    + injection E as -> <-. constructor; auto.
Qed.

Lemma deriv_matches (r : regex) :
  forall c s, matches (deriv c r) s -> matches r (String c s).
Proof.
  induction r; intros a s H; simpl in H.
  - inversion H.
  - inversion H.
  - destruct (Ascii.eqb_spec a c); inversion H; subst. constructor.
  - destruct (is_space a) eqn:Hs; inversion H; subst. constructor. exact Hs.
  - assert (Hseq : forall t, matches (Seq (deriv a r1) r2) t ->
                     matches (Seq r1 r2) (String a t)).
    { intros t Ht. inversion Ht; subst.
      change (String a (s1 ++ s2)) with (String a s1 ++ s2)%string.
      constructor; auto. }
    destruct (nullable r1) eqn:Hn.
    + inversion H; subst; [auto|].
      change (String a s) with (EmptyString ++ String a s)%string.
      constructor; [apply nullable_matches, Hn | auto].
    + auto.
  - inversion H; subst; [apply MAltL | apply MAltR]; auto.
  - inversion H; subst.
    change (String a (s1 ++ s2)) with (String a s1 ++ s2)%string.
    constructor; auto.
Qed.

Lemma deriv_spec (r : regex) (c : ascii) (s : string) :
  matches (deriv c r) s <-> matches r (String c s).
Proof.
  split; [apply deriv_matches | intros H; eapply matches_deriv; eauto].
Qed.

(** [match_here] finds a match that starts at the first character. *)
Lemma match_here_spec (s : string) (r : regex) :
  match_here s r = true <->
  exists p q, s = (p ++ q)%string /\ matches r p.
Proof.
  revert r. induction s as [|c s IH]; intros r; simpl.
  - rewrite orb_false_r, nullable_spec. split.
    + intros H. exists EmptyString, EmptyString. auto.
    + intros (p & q & E & H). symmetry in E. apply append_empty in E.
      destruct E as [-> _]. exact H.
  - rewrite orb_true_iff, nullable_spec, IH. split.
    + intros [H|(p & q & E & H)].
      * exists EmptyString, (String c s). auto.
      * exists (String c p), q. rewrite E. split; [reflexivity|].
        apply deriv_spec, H.
    + intros (p & q & E & H). destruct p as [|b p]; [left; exact H|].
      right. simpl in E. injection E as <- ->.
      exists p, q. split; [reflexivity | apply deriv_spec, H].
Qed.

(** [test] finds a match anywhere in the subject. *)
Lemma test_spec (r : regex) (s : string) :
  test r s = true <->
  exists a p q, s = (a ++ p ++ q)%string /\ matches r p.
Proof.
  unfold test. induction s as [|c s IH].
  - cbn [search]. rewrite orb_false_r, match_here_spec. split.
    + intros (p & q & E & H). exists EmptyString, p, q. auto.
    + intros (a & p & q & E & H). destruct a; [|discriminate].
      exists p, q. auto.
  - cbn [search]. rewrite orb_true_iff, match_here_spec, IH. split.
    + intros [(p & q & E & H)|(a & p & q & E & H)].
      * exists EmptyString, p, q. auto.
      * exists (String c a), p, q. rewrite E. auto.
    + intros (a & p & q & E & H). destruct a as [|b a].
      * left. exists p, q. auto.
      * right. simpl in E. injection E as <- ->. exists a, p, q. auto.
Qed.

(** *** The pattern of the email field *)

Lemma star_notspace (s : string) :
  matches (Star NotSpace) s <-> nonSpaces s = true.
Proof.
  split.
  - intros H. remember (Star NotSpace) as r eqn:E.
    induction H as [ | c | c Hc | r1 r2 s1 s2 H1 IH1 H2 IH2
                   | r1 r2 s H IH | r1 r2 s H IH
                   | r | r s1 s2 H1 IH1 H2 IH2 ];
      try discriminate; [reflexivity|].
    injection E as ->. inversion H1; subst. simpl.
    rewrite IH2 by reflexivity.
    match goal with H : is_space _ = false |- _ => rewrite H end.
    reflexivity.
  - induction s as [|c s IH]; intros H; [constructor|].
    simpl in H. apply andb_true_iff in H. destruct H as [Hc Hs].
    apply negb_true_iff in Hc.
    change (String c s) with (String c EmptyString ++ s)%string.
    constructor; [constructor; exact Hc | apply IH, Hs].
Qed.

Lemma plus_notspace (s : string) :
  matches (Plus NotSpace) s <-> word s = true.
Proof.
  unfold Plus. split.
  - intros H. inversion H as [ | | | r1 r2 s1 s2 H1 H2 | | | | ]; subst.
    inversion H1; subst. apply star_notspace in H2. simpl.
    match goal with H : is_space _ = false |- _ => rewrite H end.
    exact H2.
  - destruct s as [|c s]; [discriminate|]. simpl. intros H.
    apply andb_true_iff in H. destruct H as [Hc Hs].
    apply negb_true_iff in Hc.
    change (String c s) with (String c EmptyString ++ s)%string.
    constructor; [constructor; exact Hc | apply star_notspace, Hs].
Qed.

Lemma emailPattern_matches (p : string) :
  matches emailPattern p <->
  exists l d t,
    p = (l ++ "@" ++ d ++ "." ++ t)%string /\
    word l = true /\ word d = true /\ word t = true.
Proof.
  unfold emailPattern. split.
  - intros H.
    inversion H as [ | | | ? ? l s1 Hl H1 | | | | ]; subst.
    inversion H1 as [ | | | ? ? a s2 Ha H2 | | | | ]; subst.
    inversion H2 as [ | | | ? ? d s3 Hd H3 | | | | ]; subst.
    inversion H3 as [ | | | ? ? o t Ho Ht | | | | ]; subst.
    inversion Ha; subst. inversion Ho; subst.
    exists l, d, t. rewrite plus_notspace in Hl, Hd, Ht. auto.
  - intros (l & d & t & -> & Hl & Hd & Ht).
    rewrite <- plus_notspace in Hl, Hd, Ht.
    repeat (constructor; auto).
Qed.

(** The email rule accepts the texts that contain, somewhere, a word, an
    at sign, a word, a dot and a word, where a word is one or more
    characters other than white space. *)
Lemma emailPattern_spec (s : string) :
  test emailPattern s = true <->
  exists a l d t b,
    s = (a ++ l ++ "@" ++ d ++ "." ++ t ++ b)%string /\
    word l = true /\ word d = true /\ word t = true.
Proof.
  rewrite test_spec. split.
  - intros (a & p & q & -> & H). apply emailPattern_matches in H.
    destruct H as (l & d & t & -> & Hw).
    exists a, l, d, t, q. split; [|exact Hw].
    rewrite !append_assoc. reflexivity.
  - intros (a & l & d & t & b & -> & Hw).
    exists a, (l ++ "@" ++ d ++ "." ++ t)%string, b. split.
    + rewrite !append_assoc. reflexivity.
    + apply emailPattern_matches. exists l, d, t. auto.
Qed.

End RegexpFacts.

(** ** The form: submission, reset and summary *)

Module FormFacts.

Import Js Regexp App Reading.

(** *** Rendering *)

Lemma sameFrame_refl (st : AppState) : sameFrame st st.
Proof. repeat split. Qed.

Lemma sameFrame_trans (a b c : AppState) :
  sameFrame a b -> sameFrame b c -> sameFrame a c.
Proof.
  intros (H1 & H2 & H3 & H4 & H5) (K1 & K2 & K3 & K4 & K5).
  repeat split; congruence.
Qed.

Lemma attachField_frame (f : Field) (st : AppState) :
  sameFrame st (attachField f st).
Proof.
  unfold attachField.
  destruct (attached st f); [apply sameFrame_refl|].
  destruct f; simpl; try (repeat split; fail);
    match goal with
    | |- context [match ?v with Some _ => _ | None => _ end] =>
        destruct v; repeat split
    end.
Qed.

Lemma fold_attach_frame (fields : list Field) (st : AppState) :
  sameFrame st
    (fold_left
       (fun st' f =>
          if rendered (v_role (form st')) f then attachField f st' else st')
       fields st).
Proof.
  revert st. induction fields as [|f fields IH]; intros st; simpl.
  - apply sameFrame_refl.
  - eapply sameFrame_trans; [|apply IH].
    destruct (rendered (v_role (form st)) f);
      [apply attachField_frame | apply sameFrame_refl].
Qed.

Lemma renderForm_frame (st : AppState) : sameFrame st (renderForm st).
Proof. apply fold_attach_frame. Qed.

Lemma renderForm_registrations (st : AppState) :
  registrations (renderForm st) = registrations st.
Proof. apply renderForm_frame. Qed.

(** After an accepted submission and the render that follows, the buffer is
    blank and so are the two inputs of the role branch. *)
Lemma renderForm_submitted (uuid now : string) (st : AppState) :
  form (renderForm (submitted uuid now st)) = blank (v_role (form st)) /\
  shown (renderForm (submitted uuid now st)) =
  {| firstInput := EmptyString; secondInput := EmptyString |} /\
  errors (renderForm (submitted uuid now st)) = noErrors.
Proof.
  unfold submitted, renderForm.
  destruct (v_role (form st)); repeat split; reflexivity.
Qed.

Lemma attachField_attached (f : Field) (st : AppState) :
  attached (attachField f st) f = true.
Proof.
  unfold attachField. destruct (attached st f) eqn:H; [exact H|].
  assert (E : field_eqb f f = true) by (destruct f; reflexivity).
  destruct (slot f); [destruct (fieldValue (form st) f)|];
    cbn [attached]; rewrite E; reflexivity.
Qed.

Lemma attachField_keeps (f g : Field) (st : AppState) :
  attached st g = true -> attached (attachField f st) g = true.
Proof.
  intros H. unfold attachField. destruct (attached st f); [exact H|].
  destruct (slot f); [destruct (fieldValue (form st) f)|];
    cbn [attached]; rewrite H; apply orb_true_r.
Qed.

Lemma fold_attach_keeps (fields : list Field) (g : Field) (st : AppState) :
  attached st g = true ->
  attached
    (fold_left
       (fun st' f =>
          if rendered (v_role (form st')) f then attachField f st' else st')
       fields st) g = true.
Proof.
  revert st. induction fields as [|f fields IH]; intros st H; [exact H|].
  simpl. apply IH.
  destruct (rendered (v_role (form st)) f);
    [apply attachField_keeps, H | exact H].
Qed.

Lemma fold_attach_attaches (fields : list Field) (g : Field)
    (st : AppState) :
  In g fields ->
  rendered (v_role (form st)) g = true ->
  attached
    (fold_left
       (fun st' f =>
          if rendered (v_role (form st')) f then attachField f st' else st')
       fields st) g = true.
Proof.
  revert st. induction fields as [|f fields IH]; intros st Hin Hr;
    [contradiction|].
  simpl. destruct Hin as [->|Hin].
  - rewrite Hr. apply fold_attach_keeps, attachField_attached.
  - apply IH; [exact Hin|].
    destruct (rendered (v_role (form st)) f); [|exact Hr].
    destruct (attachField_frame f st) as (_ & _ & -> & _). exact Hr.
Qed.

Lemma renderForm_settled (st : AppState) : settled (renderForm st).
Proof.
  intros f Hr.
  destruct (renderForm_frame st) as (_ & _ & Hrole & _).
  rewrite Hrole in Hr.
  apply fold_attach_attaches; [destruct f; simpl; tauto | exact Hr].
Qed.

Lemma fold_attach_noop (fields : list Field) (st : AppState) :
  settled st ->
  fold_left
    (fun st' f =>
       if rendered (v_role (form st')) f then attachField f st' else st')
    fields st = st.
Proof.
  intros H. induction fields as [|f fields IH]; [reflexivity|].
  simpl. destruct (rendered (v_role (form st)) f) eqn:Hr; [|exact IH].
  unfold attachField at 2. rewrite (H f Hr). exact IH.
Qed.

(** A render of a settled page changes nothing. *)
Lemma renderForm_noop (st : AppState) : settled st -> renderForm st = st.
Proof. apply fold_attach_noop. Qed.

(** *** What one event does *)

Lemma step_change_role (st : AppState) (r : Role) :
  step st (ChangeRole r) =
  (renderForm
     {| registrations := registrations st;
        form := setRole (form st) r;
        shown := shown st;
        attached := attached st;
        errors := errors st |}, []).
Proof. reflexivity. Qed.

Lemma step_input (st : AppState) (f : Field) (text : string) :
  step st (Input f text) =
  if rendered (v_role (form st)) f
  then ({| registrations := registrations st;
           form := setFieldValue (form st) f text;
           shown :=
             match slot f with
             | None => shown st
             | Some s => setSlotText (shown st) s text
             end;
           attached := attached st;
           errors := errors st |}, [])
  else (st, []).
Proof.
  unfold step, handle, bind, getValues; simpl.
  destruct (rendered (v_role (form st)) f); reflexivity.
Qed.

Lemma step_submit (st : AppState) (uuid now : string) :
  step st (Submit uuid now) =
  if isValid (form st) (shown st)
  then (renderForm (submitted uuid now st), [])
  else (refused st, []).
Proof.
  unfold step, handle, handleSubmit, bind, getValues, getShown; simpl.
  destruct (isValid (form st) (shown st)); reflexivity.
Qed.

Lemma step_download (st : AppState) (created : bool) (today : string) :
  step st (Download created today) =
  (st,
   match registrations st with
   | [] => []
   | _ :: _ =>
       if created
       then [ WindowOpen true; DocumentOpen;
              DocumentWrite (buildPrintableHtml today (registrations st));
              DocumentClose; WindowFocus; WindowPrint; WindowClose ]
       else [ WindowOpen false ]
   end).
Proof.
  unfold step, handle, handleDownload, bind, getRegistrations; simpl.
  destruct (registrations st) as [|r rs]; simpl; [reflexivity|].
  destruct created; reflexivity.
Qed.

(** The list after one event. *)
Lemma step_list (st : AppState) (e : Event) :
  registrations (fst (step st e)) =
  match e with
  | Submit uuid now =>
      if isValid (form st) (shown st)
      then registrationOf uuid now (form st) :: registrations st
      else registrations st
  | _ => registrations st
  end.
Proof.
  destruct e as [r|f text|uuid now|created today].
  - rewrite step_change_role. cbn [fst].
    rewrite renderForm_registrations. reflexivity.
  - rewrite step_input.
    destruct (rendered (v_role (form st)) f); reflexivity.
  - rewrite step_submit. destruct (isValid (form st) (shown st)); cbn [fst].
    + rewrite renderForm_registrations. reflexivity.
    + reflexivity.
  - rewrite step_download. reflexivity.
Qed.

(** The page is settled after every event, so that the renders left out of
    [handle] (after an input, a rejected submission, a report action) would
    change nothing. *)
Lemma step_settled (st : AppState) (e : Event) :
  settled st -> settled (fst (step st e)).
Proof.
  intros H. destruct e as [r|f text|uuid now|created today].
  - rewrite step_change_role. apply renderForm_settled.
  - rewrite step_input.
    destruct (rendered (v_role (form st)) f) eqn:Hr; [|exact H].
    intros g Hg. cbn [fst attached]. apply H.
    cbn [fst form] in Hg.
    replace (v_role (setFieldValue (form st) f text))
      with (v_role (form st)) in Hg by (destruct f; reflexivity).
    exact Hg.
  - rewrite step_submit. destruct (isValid (form st) (shown st)).
    + apply renderForm_settled.
    + exact H.
  - rewrite step_download. exact H.
Qed.

Lemma run_settled (events : list Event) (st : AppState) :
  settled st -> settled (run st events).
Proof.
  revert st. induction events as [|e events IH]; intros st H; [exact H|].
  simpl. apply IH, step_settled, H.
Qed.

Lemma render_after_events (events : list Event) :
  renderForm (run initialState events) = run initialState events.
Proof.
  apply renderForm_noop, run_settled. apply renderForm_settled.
Qed.

(** *** Validation *)

Lemma validateField_required (options : RegisterOptions)
    (value : option string) (element : string) :
  pattern options = None ->
  (validateField options value element = None <->
   populated value = true /\ is_empty_string element = false).
Proof.
  intros Hp. unfold validateField. rewrite Hp.
  destruct value as [[|c text]|]; destruct element as [|d element]; simpl;
    split; intros H; try discriminate; try (destruct H; discriminate);
    auto.
Qed.

Lemma validateField_own (options : RegisterOptions) (text : string) :
  pattern options = None ->
  (validateField options (Some text) text = None <->
   is_empty_string text = false).
Proof.
  intros Hp. rewrite (validateField_required _ _ _ Hp). simpl.
  destruct text; simpl; split; intros H; try discriminate; auto.
  destruct H. discriminate.
Qed.

Lemma validateField_email (text : string) :
  validateField (registerOptions Email) (Some text) text = None <->
  test emailPattern text = true.
Proof.
  unfold validateField; simpl pattern; simpl required.
  destruct text as [|c text]; [simpl; split; discriminate|].
  simpl is_empty_string. simpl orb. cbv iota.
  destruct (test emailPattern (String c text)); split; intros H;
    reflexivity || discriminate.
Qed.

Lemma no_message (e : option string) :
  match e with None => true | Some _ => false end = true <-> e = None.
Proof. destruct e; split; intros H; reflexivity || discriminate. Qed.

(** The submissions the form accepts, field by field: the name and the
    email as the buffer holds them, and the two fields of the role both as
    the buffer holds them and as their inputs show them. *)
Lemma isValid_spec (values : RegistrationFormValues) (inputs : BranchInputs) :
  isValid values inputs = true <->
  is_empty_string (v_fullName values) = false /\
  test emailPattern (v_email values) = true /\
  match v_role values with
  | student =>
      populated (v_gradeLevel values) = true /\
      populated (v_studentId values) = true
  | teacher =>
      populated (v_subject values) = true /\
      populated (v_employeeId values) = true
  end /\
  is_empty_string (firstInput inputs) = false /\
  is_empty_string (secondInput inputs) = false.
Proof.
  unfold isValid, allFields, forallb.
  rewrite !andb_true_iff, !no_message.
  unfold validate, elementText.
  pose proof (validateField_own (registerOptions FullName)
                (v_fullName values) eq_refl) as Hn.
  pose proof (validateField_email (v_email values)) as He.
  pose proof (fun f v e H =>
                validateField_required (registerOptions f) v e H) as Hr.
  destruct (v_role values); simpl rendered; simpl fieldValue; simpl slot;
    cbv iota; simpl nullish; simpl slotText.
  - rewrite Hn, He, (Hr GradeLevel), (Hr StudentId) by reflexivity. tauto.
  - rewrite Hn, He, (Hr Subject), (Hr EmployeeId) by reflexivity. tauto.
Qed.

(** *** Submission *)

(** C3, as the code has it. A student submission is accepted when the full
    name is not empty, the email matches the pattern, the role is student,
    the grade level and the student identifier are not empty in the form
    values, and the two inputs they are rendered in are not empty either.
    It then makes the list one entry longer, raises [total] and
    [studentCount] by one, leaves [teacherCount] as it is, and puts the new
    entry, built from the submitted values, first. *)
Theorem valid_student_submission (st : AppState) (uuid now : string) :
  v_role (form st) = student ->
  is_empty_string (v_fullName (form st)) = false ->
  test emailPattern (v_email (form st)) = true ->
  populated (v_gradeLevel (form st)) = true ->
  populated (v_studentId (form st)) = true ->
  is_empty_string (firstInput (shown st)) = false ->
  is_empty_string (secondInput (shown st)) = false ->
  let before := registrations st in
  let after := registrations (fst (step st (Submit uuid now))) in
  length after = S (length before) /\
  total (summary after) = S (total (summary before)) /\
  studentCount (summary after) = S (studentCount (summary before)) /\
  teacherCount (summary after) = teacherCount (summary before) /\
  after = registrationOf uuid now (form st) :: before /\
  role (registrationOf uuid now (form st)) = student.
Proof.
  intros Hrole Hname Hemail Hgrade Hid Hfirst Hsecond before after.
  assert (Hv : isValid (form st) (shown st) = true).
  { apply isValid_spec. rewrite Hrole. auto. }
  subst before after. rewrite step_list, Hv. simpl.
  rewrite Hrole. simpl. repeat split; reflexivity.
Qed.

Lemma valid_student_submission_witness :
  (form jordanFilled = jordan /\
   v_role jordan = student /\
   is_empty_string (v_fullName jordan) = false /\
   test emailPattern (v_email jordan) = true /\
   populated (v_gradeLevel jordan) = true /\
   populated (v_studentId jordan) = true /\
   shown jordanFilled =
   {| firstInput := "10"; secondInput := "STU-2045" |}) /\
  let before := registrations jordanFilled in
  let after :=
    registrations (fst (step jordanFilled (Submit "id-1" "1/2/2026"))) in
  length after = S (length before) /\
  total (summary after) = S (total (summary before)) /\
  studentCount (summary after) = S (studentCount (summary before)) /\
  teacherCount (summary after) = teacherCount (summary before) /\
  after = registrationOf "id-1" "1/2/2026" (form jordanFilled) :: before /\
  role (registrationOf "id-1" "1/2/2026" (form jordanFilled)) = student.
Proof.
  split; [repeat split; reflexivity|].
  apply (valid_student_submission jordanFilled "id-1" "1/2/2026");
    reflexivity.
Defined.

(** C3, as stated, fails. After [staleGradeEvents] the form values are
    those of a valid student submission (name, matching email, role
    student, grade level 10 and a student identifier), and the submission
    is rejected: the first input of the role branch shows nothing, the
    grade level is reported as required and the list stays empty. *)
Lemma stale_grade_rejected :
  (v_role (form staleGrade) = student /\
   v_fullName (form staleGrade) = "Jordan Lee" /\
   test emailPattern (v_email (form staleGrade)) = true /\
   v_gradeLevel (form staleGrade) = Some "10" /\
   v_studentId (form staleGrade) = Some "STU-2045") /\
  firstInput (shown staleGrade) = EmptyString /\
  registrations (fst (step staleGrade (Submit "id-1" "1/2/2026"))) = [] /\
  errors (fst (step staleGrade (Submit "id-1" "1/2/2026"))) GradeLevel
  = Some "Grade level is required".
Proof. repeat split; reflexivity. Qed.

(** C5. A submission whose email does not match the pattern is rejected:
    the email field gets an error message, the list is the same (so its
    length is), the buffer keeps what was typed, and nothing else happens. *)
Theorem invalid_email_rejected (st : AppState) (uuid now : string) :
  test emailPattern (v_email (form st)) = false ->
  let st' := fst (step st (Submit uuid now)) in
  (exists message, errors st' Email = Some message) /\
  registrations st' = registrations st /\
  length (registrations st') = length (registrations st) /\
  form st' = form st /\
  snd (step st (Submit uuid now)) = [].
Proof.
  intros Hemail st'.
  assert (Hv : isValid (form st) (shown st) = false).
  { destruct (isValid (form st) (shown st)) eqn:Hv; [|reflexivity].
    apply isValid_spec in Hv. destruct Hv as (_ & Ht & _). congruence. }
  subst st'. rewrite step_submit, Hv. simpl.
  repeat split; try reflexivity.
  unfold validate, elementText. simpl rendered. cbv iota.
  simpl fieldValue. simpl slot. cbv iota. simpl nullish.
  destruct (validateField (registerOptions Email) (Some (v_email (form st)))
              (v_email (form st)))
    as [message|] eqn:Hf.
  - exists message. reflexivity.
  - apply validateField_email in Hf. congruence.
Qed.

Lemma invalid_email_rejected_witness :
  (v_email (form badEmailFilled) = "not-an-email" /\
   test emailPattern "not-an-email" = false) /\
  let st' := fst (step badEmailFilled (Submit "id-1" "1/2/2026")) in
  (exists message, errors st' Email = Some message) /\
  registrations st' = registrations badEmailFilled /\
  length (registrations st') = length (registrations badEmailFilled) /\
  form st' = form badEmailFilled /\
  snd (step badEmailFilled (Submit "id-1" "1/2/2026")) = [].
Proof.
  split; [split; reflexivity|].
  apply (invalid_email_rejected badEmailFilled "id-1" "1/2/2026").
  reflexivity.
Defined.

(** C7. After a valid submission the buffer holds the role that was
    submitted and the empty string in every other field. *)
Theorem submit_resets_buffer (st : AppState) (uuid now : string) :
  isValid (form st) (shown st) = true ->
  let values := form (fst (step st (Submit uuid now))) in
  v_role values = v_role (form st) /\
  v_fullName values = EmptyString /\
  v_email values = EmptyString /\
  v_gradeLevel values = Some EmptyString /\
  v_studentId values = Some EmptyString /\
  v_subject values = Some EmptyString /\
  v_employeeId values = Some EmptyString.
Proof.
  intros Hv values. subst values.
  rewrite step_submit, Hv. cbn [fst].
  destruct (renderForm_submitted uuid now st) as (-> & _).
  repeat split; reflexivity.
Qed.

Lemma submit_resets_buffer_witness :
  isValid (form jordanFilled) (shown jordanFilled) = true /\
  let values := form (fst (step jordanFilled (Submit "id-1" "1/2/2026"))) in
  v_role values = v_role (form jordanFilled) /\
  v_fullName values = EmptyString /\
  v_email values = EmptyString /\
  v_gradeLevel values = Some EmptyString /\
  v_studentId values = Some EmptyString /\
  v_subject values = Some EmptyString /\
  v_employeeId values = Some EmptyString.
Proof.
  split; [reflexivity|].
  apply (submit_resets_buffer jordanFilled "id-1" "1/2/2026").
  reflexivity.
Defined.

(** *** The summary *)

Lemma summary_of_list (registrations : list Registration) :
  total (summary registrations) = length registrations /\
  studentCount (summary registrations) + teacherCount (summary registrations)
  = total (summary registrations).
Proof.
  split; [reflexivity|].
  unfold summary; simpl.
  induction registrations as [|r rs IH]; simpl; [reflexivity|].
  destruct (role r); simpl; lia.
Qed.

Lemma length_after_step (st : AppState) (e : Event) :
  length (registrations (fst (step st e))) =
  length (registrations st) + validSubmissions st [e].
Proof.
  rewrite step_list.
  destruct e as [r|f text|uuid now|created today]; simpl validSubmissions;
    try lia.
  destruct (isValid (form st) (shown st)); simpl; lia.
Qed.

Lemma length_after_run (events : list Event) (st : AppState) :
  length (registrations (run st events)) =
  length (registrations st) + validSubmissions st events.
Proof.
  revert st. induction events as [|e events IH]; intros st.
  - simpl. lia.
  - simpl run. rewrite IH, length_after_step.
    simpl validSubmissions. lia.
Qed.

(** C4. After any sequence of events on the page, [summary.total] is the
    length of the list, which is the number of valid submissions made, and
    [summary.studentCount + summary.teacherCount] is [summary.total]. *)
Theorem summary_counts_reachable (events : list Event) :
  let registered := registrations (run initialState events) in
  total (summary registered) = length registered /\
  total (summary registered) = validSubmissions initialState events /\
  studentCount (summary registered) + teacherCount (summary registered)
  = total (summary registered).
Proof.
  intros registered.
  destruct (summary_of_list registered) as [Htotal Hsum].
  repeat split; try assumption.
  rewrite Htotal. subst registered. rewrite length_after_run. reflexivity.
Qed.

(** *** The report action *)

(** C6. With an empty list the report action does nothing: no call is made
    on the browser (no window is opened, no document written, no print
    asked for) and the page is as it was. *)
Theorem download_empty_noop (st : AppState) (created : bool)
    (today : string) :
  registrations st = [] ->
  step st (Download created today) = (st, []).
Proof.
  intros Hempty. rewrite step_download, Hempty. reflexivity.
Qed.

Lemma download_empty_noop_witness :
  registrations jordanFilled = [] /\
  step jordanFilled (Download true "1/2/2026") = (jordanFilled, []).
Proof.
  split; [reflexivity|].
  apply (download_empty_noop jordanFilled true "1/2/2026"). reflexivity.
Defined.

(** C10. The report action leaves the page state as it is, and with it the
    list, the buffer and the summary, in each of its three courses: the list
    is empty (no call), the window is refused (one call), the document is
    written and printed (seven calls). *)
Theorem download_preserves_state (st : AppState) (created : bool)
    (today : string) :
  let st' := fst (step st (Download created today)) in
  let calls := snd (step st (Download created today)) in
  st' = st /\
  registrations st' = registrations st /\
  form st' = form st /\
  summary (registrations st') = summary (registrations st) /\
  (calls = [] /\ registrations st = []
   \/ calls = [WindowOpen false] /\ registrations st <> [] /\ created = false
   \/ calls = [ WindowOpen true; DocumentOpen;
                DocumentWrite (buildPrintableHtml today (registrations st));
                DocumentClose; WindowFocus; WindowPrint; WindowClose ]
      /\ registrations st <> [] /\ created = true).
Proof.
  intros st' calls. subst st' calls. rewrite step_download. simpl.
  repeat split.
  destruct (registrations st) as [|r rs].
  - left. split; reflexivity.
  - right. destruct created.
    + right. repeat split; [discriminate].
    + left. repeat split; [discriminate].
Qed.

(** *** The two pairs of a registration *)

Lemma valid_entry_role_pair (uuid now : string)
    (values : RegistrationFormValues) (inputs : BranchInputs) :
  isValid values inputs = true ->
  rolePair (registrationOf uuid now values) = true.
Proof.
  intros Hv. apply isValid_spec in Hv. destruct Hv as (_ & _ & Hpair & _).
  unfold rolePair, studentPair, teacherPair; simpl.
  destruct (v_role values); destruct Hpair as [H1 H2]; rewrite H1, H2;
    reflexivity.
Qed.

Lemma role_pair_step (st : AppState) (e : Event) :
  Forall (fun r => rolePair r = true) (registrations st) ->
  Forall (fun r => rolePair r = true) (registrations (fst (step st e))).
Proof.
  intros Hinv. rewrite step_list.
  destruct e as [r|f text|uuid now|created today]; try exact Hinv.
  destruct (isValid (form st) (shown st)) eqn:Hv; [|exact Hinv].
  constructor; [eapply valid_entry_role_pair; exact Hv | exact Hinv].
Qed.

Lemma role_pair_run (events : list Event) (st : AppState) :
  Forall (fun r => rolePair r = true) (registrations st) ->
  Forall (fun r => rolePair r = true) (registrations (run st events)).
Proof.
  revert st. induction events as [|e events IH]; intros st Hinv.
  - exact Hinv.
  - simpl. apply IH, role_pair_step, Hinv.
Qed.

Lemma other_pair_ignored (r : Registration) (a b : option string) :
  role (withOtherPair r a b) = role r /\
  (forall index, rowHtml (withOtherPair r a b) index = rowHtml r index) /\
  listItem (withOtherPair r a b) = listItem r.
Proof.
  destruct r as [i ro n e g s sb em c].
  destruct ro; repeat split; reflexivity.
Qed.

(** C1, as the code has it. After any sequence of events on the page (role
    changes, inputs, submissions, report actions), every registration of the
    list has the pair of its role populated: both fields present and not
    empty. The other pair is stored as the buffer held it, empty or not, and
    is ignored: replacing it by anything changes neither the role, nor the
    row of the report, nor the entry of the rendered list. *)
Theorem role_pair_populated_other_ignored (events : list Event)
    (r : Registration) :
  In r (registrations (run initialState events)) ->
  rolePair r = true /\
  forall a b : option string,
    role (withOtherPair r a b) = role r /\
    (forall index, rowHtml (withOtherPair r a b) index = rowHtml r index) /\
    listItem (withOtherPair r a b) = listItem r.
Proof.
  intros Hin. split.
  - assert (Hinv : Forall (fun r => rolePair r = true)
                     (registrations (run initialState events))).
    { apply role_pair_run. constructor. }
    rewrite Forall_forall in Hinv. apply Hinv, Hin.
  - intros a b. apply other_pair_ignored.
Qed.

Lemma role_pair_populated_other_ignored_witness :
  let r := registrationOf "id-1" "1/2/2026, 9:00:00 AM"
             {| v_role := teacher;
                v_fullName := "Jordan Lee";
                v_email := "jordan@school.edu";
                v_gradeLevel := Some "10";
                v_studentId := Some "STU-2045";
                v_subject := Some "Mathematics";
                v_employeeId := Some "EMP-8820" |} in
  In r (registrations (run initialState roleChangeEvents)) /\
  rolePair r = true /\
  forall a b : option string,
    role (withOtherPair r a b) = role r /\
    (forall index, rowHtml (withOtherPair r a b) index = rowHtml r index) /\
    listItem (withOtherPair r a b) = listItem r.
Proof.
  intros r.
  assert (Hin : In r (registrations (run initialState roleChangeEvents))).
  { vm_compute. left. reflexivity. }
  split; [exact Hin|].
  exact (role_pair_populated_other_ignored roleChangeEvents r Hin).
Defined.

(** C1, as stated, fails. The user fills the student pair, changes the role
    to teacher, fills the rest and submits: the entry stored is a teacher
    whose student pair is populated as well, so two pairs are populated
    and not exactly one. *)
Lemma both_pairs_after_role_change :
  let r := registrationOf "id-1" "1/2/2026, 9:00:00 AM"
             {| v_role := teacher;
                v_fullName := "Jordan Lee";
                v_email := "jordan@school.edu";
                v_gradeLevel := Some "10";
                v_studentId := Some "STU-2045";
                v_subject := Some "Mathematics";
                v_employeeId := Some "EMP-8820" |} in
  registrations (run initialState roleChangeEvents) = [r] /\
  role r = teacher /\
  teacherPair r = true /\
  studentPair r = true /\
  exactlyOnePair r = false.
Proof. repeat split; reflexivity. Qed.

End FormFacts.

(** ** The report *)

Module ReportFacts.

Import Js App Reading StringFacts.

(** *** Joining *)

Lemma join_cons (x : string) (xs : list string) :
  join (x :: xs) = (x ++ join xs)%string.
Proof.
  unfold join. destruct xs as [|y ys]; simpl.
  - symmetry. apply append_empty_r.
  - reflexivity.
Qed.

(** *** The rows the builder writes are the rows of the table *)

Lemma rowHtml_markup (r : Registration) (index : nat) :
  rowHtml r index = rowMarkup (reportCells (index + 1) r).
Proof.
  unfold rowHtml, rowMarkup, cellLine, reportCells, gradeOrSubject,
    identifier.
  destruct (role r); reflexivity.
Qed.

Lemma mapi_from_table (registrations : list Registration) (start : nat) :
  mapi_from start rowHtml registrations =
  map rowMarkup (reportTableFrom (S start) registrations).
Proof.
  revert start. induction registrations as [|r rs IH]; intros start; simpl.
  - reflexivity.
  - rewrite IH. f_equal. rewrite <- Nat.add_1_r. apply rowHtml_markup.
Qed.


Lemma reportTableFrom_nth (registrations : list Registration)
    (first i : nat) (r : Registration) :
  nth_error registrations i = Some r ->
  nth_error (reportTableFrom first registrations) i =
  Some (reportCells (first + i) r).
Proof.
  revert first i. induction registrations as [|x rs IH]; intros first i H.
  - destruct i; discriminate.
  - destruct i as [|i]; simpl in *.
    + injection H as ->. rewrite Nat.add_0_r. reflexivity.
    + rewrite (IH (S first) i H). f_equal. f_equal. lia.
Qed.

Lemma frame_shape (a b c d d' e : string) :
  d = d' ->
  (a ++ b ++ c ++ d ++ e)%string = ((a ++ b ++ c) ++ d' ++ e)%string.
Proof. intros <-. rewrite !append_assoc. reflexivity. Qed.

(** The document is a frame, the same for every list, around the rows. *)
Lemma report_frame (today : string) :
  exists head tail : string,
  forall registrations : list Registration,
    buildPrintableHtml today registrations =
    (head ++ join (map rowMarkup (reportTable registrations)) ++ tail)%string.
Proof.
  unfold buildPrintableHtml.
  eexists. eexists.
  intros registrations. cbv zeta.
  apply frame_shape.
  unfold mapi, reportTable. rewrite mapi_from_table. reflexivity.
Qed.

(** *** Searching a text *)

Lemma startsWith_append (part rest : string) :
  startsWith (part ++ rest) part = true.
Proof.
  induction part as [|c part IH]; simpl; [reflexivity|].
  rewrite Ascii.eqb_refl, IH. reflexivity.
Qed.

Lemma includes_unfold (text part : string) :
  includes text part =
  startsWith text part ||
  match text with
  | EmptyString => false
  | String _ text' => includes text' part
  end.
Proof. destruct text; reflexivity. Qed.

Lemma includes_here (part rest : string) :
  includes (part ++ rest) part = true.
Proof. rewrite includes_unfold, startsWith_append. reflexivity. Qed.

Lemma includes_append_r (a b part : string) :
  includes b part = true -> includes (a ++ b) part = true.
Proof.
  intros H. induction a as [|c a IH]; simpl; [exact H|].
  rewrite IH. apply orb_true_r.
Qed.

Lemma startsWith_append_l (a b part : string) :
  startsWith a part = true -> startsWith (a ++ b) part = true.
Proof.
  revert a. induction part as [|p part IH]; intros a H; [reflexivity|].
  destruct a as [|c a]; simpl in *; [discriminate|].
  apply andb_true_iff in H. destruct H as [H1 H2].
  rewrite H1, (IH a H2). reflexivity.
Qed.

Lemma includes_append_l (a b part : string) :
  includes a part = true -> includes (a ++ b) part = true.
Proof.
  induction a as [|c a IH]; intros H; rewrite includes_unfold in H;
    apply orb_true_iff in H; destruct H as [H|H].
  - rewrite includes_unfold, (startsWith_append_l _ _ _ H). reflexivity.
  - discriminate.
  - rewrite includes_unfold, (startsWith_append_l _ _ _ H). reflexivity.
  - simpl append. rewrite includes_unfold, (IH H). apply orb_true_r.
Qed.

Lemma includes_join (rows : list string) (row part : string) :
  In row rows -> includes row part = true ->
  includes (join rows) part = true.
Proof.
  induction rows as [|x rows IH]; intros Hin Hrow; [contradiction|].
  rewrite join_cons. destruct Hin as [->|Hin].
  - apply includes_append_l, Hrow.
  - apply includes_append_r, IH; assumption.
Qed.

Lemma cellMarkup_append (cell rest : string) :
  ("<td>" ++ cell ++ "</td>" ++ rest)%string
  = (cellMarkup cell ++ rest)%string.
Proof. unfold cellMarkup. rewrite !append_assoc. reflexivity. Qed.

Lemma includes_rowMarkup (cells : list string) (cell : string) :
  In cell cells -> includes (rowMarkup cells) (cellMarkup cell) = true.
Proof.
  intros Hin. unfold rowMarkup.
  do 4 apply includes_append_r.
  induction cells as [|x cells IH]; [contradiction|].
  cbn [fold_right]. unfold cellLine at 1. destruct Hin as [->|Hin].
  - apply includes_append_r.
    rewrite cellMarkup_append. apply includes_here.
  - do 5 apply includes_append_r. apply IH, Hin.
Qed.

(** *** Reading the table back *)




















(** *** The report and the list *)




(** C9. Every field of every registration of the list is in the document as
    it is, between the tags of its cell, whatever characters it is made of:
    no character is escaped. *)
Theorem report_inserts_fields_verbatim (today : string)
    (registrations : list Registration) (r : Registration) :
  In r registrations ->
  let document := buildPrintableHtml today registrations in
  includes document (cellMarkup (fullName r)) = true /\
  includes document (cellMarkup (email r)) = true /\
  includes document (cellMarkup (gradeOrSubject r)) = true /\
  includes document (cellMarkup (identifier r)) = true /\
  includes document (cellMarkup (createdAt r)) = true.
Proof.
  intros Hin document.
  destruct (report_frame today) as (head & tail & Hframe).
  destruct (In_nth_error _ _ Hin) as [i Hi].
  pose proof (reportTableFrom_nth registrations 1 i r Hi) as Hrow.
  apply nth_error_In in Hrow. fold (reportTable registrations) in Hrow.
  assert (Hcell : forall cell, In cell (reportCells (1 + i) r) ->
                    includes document (cellMarkup cell) = true).
  { intros cell Hcell. subst document. rewrite Hframe.
    apply includes_append_r, includes_append_l.
    apply includes_join with (row := rowMarkup (reportCells (1 + i) r)).
    - apply in_map, Hrow.
    - apply includes_rowMarkup, Hcell. }
  unfold reportCells in Hcell.
  repeat split; apply Hcell; simpl; auto 10.
Qed.

Lemma report_inserts_fields_verbatim_witness :
  In markupStudent [sampleTeacher; markupStudent] /\
  let document :=
    buildPrintableHtml "1/2/2026" [sampleTeacher; markupStudent] in
  (includes document "<td><b>Ann & Bob</b></td>" = true /\
   includes document "<td>a&b@school.edu</td>" = true /\
   includes document "<td><10></td>" = true /\
   includes document "<td>STU-1</td>" = true /\
   includes document "<td>1/2/2026, 9:10:00 AM</td>" = true) /\
  includes document "&lt;" = false /\
  includes document "&amp;" = false.
Proof.
  assert (Hin : In markupStudent [sampleTeacher; markupStudent]).
  { right. left. reflexivity. }
  split; [exact Hin|].
  split.
  - exact (report_inserts_fields_verbatim "1/2/2026"
             [sampleTeacher; markupStudent] markupStudent Hin).
  - split; vm_compute; reflexivity.
Defined.

End ReportFacts.

(** ** The server port *)

Module ServerFacts.

Import Js Server.

(** Reading the digits of a numeral gives back its value. *)
Lemma decimalValue_uint (d : Decimal.uint) (acc : nat) :
  decimalValue (Z.of_nat acc) (NilEmpty.string_of_uint d) =
  Some (Z.of_nat (Nat.of_uint_acc d acc)).
Proof.
  revert acc. induction d; intros acc; simpl NilEmpty.string_of_uint;
    [reflexivity|..];
    cbn [decimalValue];
    match goal with
    | |- context [digitValue ?c] =>
        change (digitValue c) with (Some (Z.of_nat (nat_of_ascii c) - 48)%Z)
    end;
    cbn [Nat.of_uint_acc]; rewrite <- IHd; f_equal;
    rewrite Nat.tail_mul_spec;
    match goal with
    | |- context [nat_of_ascii ?c] =>
        let code := eval vm_compute in (nat_of_ascii c) in
        change (nat_of_ascii c) with code
    end; lia.
Qed.

Lemma Number_decimal (n : nat) :
  (Z.of_nat n <= maxExact)%Z ->
  Number (Some (string_of_index n)) = Some (Num (Z.of_nat n)).
Proof.
  intros H. unfold Number, string_of_index.
  change (decimalValue 0) with (decimalValue (Z.of_nat 0)).
  rewrite (decimalValue_uint (Nat.to_uint n) 0).
  change (Nat.of_uint_acc (Nat.to_uint n) 0) with (Nat.of_uint (Nat.to_uint n)).
  rewrite DecimalNat.Unsigned.of_to.
  apply Z.leb_le in H. rewrite H. reflexivity.
Qed.

(** *** Texts of decimal digits *)

Lemma isDigit_inv (c : ascii) :
  isDigit c = true ->
  In c ["0"; "1"; "2"; "3"; "4"; "5"; "6"; "7"; "8"; "9"]%char.
Proof.
  destruct c as [[] [] [] [] [] [] [] []]; intros H;
    try discriminate H; simpl; auto 11.
Qed.

(** A digit is no white space, no sign, no dot, no radix letter and not the
    first letter of [Infinity]. *)
Lemma digit_is_plain (c : ascii) :
  isDigit c = true ->
  Regexp.is_space c = false /\
  Ascii.eqb c "+" = false /\
  Ascii.eqb c "-" = false /\
  Ascii.eqb c "I" = false /\
  radixOf c = None.
Proof.
  intros H. apply isDigit_inv in H. simpl in H.
  repeat (destruct H as [<-|H]; [repeat split; reflexivity|]).
  contradiction.
Qed.

Lemma decimalValue_allDigits (text : string) (acc value : Z) :
  decimalValue acc text = Some value -> allDigits text = true.
Proof.
  revert acc. induction text as [|c text IH]; intros acc H; [reflexivity|].
  cbn [decimalValue] in H. cbn [allDigits]. unfold isDigit.
  destruct (digitValue c); [|discriminate]. apply (IH _ H).
Qed.

Lemma digitsOf_allDigits (text : string) :
  allDigits text = true -> digitsOf text = (text, EmptyString).
Proof.
  induction text as [|c text IH]; intros H; [reflexivity|].
  cbn [allDigits] in H. apply andb_true_iff in H. destruct H as [Hc Ht].
  cbn [digitsOf]. rewrite Hc, (IH Ht). reflexivity.
Qed.

Lemma trimEnd_allDigits (text : string) :
  allDigits text = true -> trimEnd text = text.
Proof.
  induction text as [|c text IH]; intros H; [reflexivity|].
  cbn [allDigits] in H. apply andb_true_iff in H. destruct H as [Hc Ht].
  cbn [trimEnd]. rewrite (IH Ht).
  destruct text; [|reflexivity].
  destruct (digit_is_plain c Hc) as (-> & _). reflexivity.
Qed.

(** Where [Number] answers with an integer, the number of the text is that
    integer. *)
Lemma StringToNumber_digits (text : string) (value : Z) :
  decimalValue 0 text = Some value ->
  StringToNumber text = Nearest false value 0.
Proof.
  intros H. pose proof (decimalValue_allDigits _ _ _ H) as Hall.
  destruct text as [|c text].
  { injection H as <-. reflexivity. }
  pose proof Hall as Hc. cbn [allDigits] in Hc.
  apply andb_true_iff in Hc. destruct Hc as [Hc Ht].
  destruct (digit_is_plain c Hc) as (Hspace & Hplus & Hminus & HI & _).
  unfold StringToNumber, trim.
  cbn [trimStart]. rewrite Hspace, (trimEnd_allDigits _ Hall).
  assert (Hnon : nonDecimal (String c text) = None).
  { unfold nonDecimal. destruct text as [|d text]; [reflexivity|].
    cbn [allDigits] in Ht. apply andb_true_iff in Ht. destruct Ht as [Hd _].
    destruct (digit_is_plain d Hd) as (_ & _ & _ & _ & ->).
    destruct (Ascii.eqb c "0"); reflexivity. }
  rewrite Hnon, Hplus, Hminus.
  unfold unsignedLiteral.
  assert (Hinf : String.eqb (String c text) "Infinity" = false).
  { cbn [String.eqb]. rewrite HI. reflexivity. }
  rewrite Hinf. unfold unsignedDecimal.
  rewrite (digitsOf_allDigits _ Hall).
  cbn [Js.is_empty_string andb exponentPart String.length].
  rewrite StringFacts.append_empty_r, H. reflexivity.
Qed.

Lemma trimEnd_first (c : ascii) (text : string) :
  Regexp.is_space c = false ->
  exists rest, trimEnd (String c text) = String c rest.
Proof.
  intros H. cbn [trimEnd]. rewrite H.
  destruct (trimEnd text); eexists; reflexivity.
Qed.

(** A text that starts with a character no numeric literal starts with is
    not a number. *)
Lemma StringToNumber_no_number (c : ascii) (text : string) :
  opensNoNumber c = true ->
  StringToNumber (String c text) = NotANumber.
Proof.
  unfold opensNoNumber. rewrite negb_true_iff, !orb_false_iff.
  intros (((((Hspace & Hdigit) & Hplus) & Hminus) & Hdot) & HI).
  unfold StringToNumber, trim. cbn [trimStart]. rewrite Hspace.
  destruct (trimEnd_first c text Hspace) as [rest ->].
  assert (Hzero : Ascii.eqb c "0" = false).
  { destruct (Ascii.eqb_spec c "0") as [->|]; [discriminate | reflexivity]. }
  assert (Hnon : nonDecimal (String c rest) = None).
  { unfold nonDecimal. destruct rest; [reflexivity|].
    rewrite Hzero. reflexivity. }
  rewrite Hnon, Hplus, Hminus. unfold unsignedLiteral.
  cbn [String.eqb]. rewrite HI. cbn [andb].
  unfold unsignedDecimal. cbn [digitsOf]. rewrite Hdigit, Hdot.
  reflexivity.
Qed.

(** A text of white space alone has the number zero. *)
Lemma StringToNumber_spaces (text : string) :
  allSpaces text = true -> StringToNumber text = Nearest false 0 0.
Proof.
  intros H. unfold StringToNumber, trim.
  assert (E : trimStart text = EmptyString).
  { induction text as [|c text IH]; [reflexivity|].
    cbn [allSpaces] in H. apply andb_true_iff in H. destruct H as [Hc Ht].
    cbn [trimStart]. rewrite Hc. apply IH, Ht. }
  rewrite E. reflexivity.
Qed.

Lemma port_listenPort (PORT : option string) (p : Z) :
  port PORT = Some p -> listenPort PORT = Nearest false p 0.
Proof.
  unfold port, Number, listenPort, ToNumber.
  destruct PORT as [text|]; [|intros [= <-]; reflexivity].
  destruct (decimalValue 0 text) as [value|] eqn:Hvalue; [|discriminate].
  rewrite (StringToNumber_digits _ _ Hvalue).
  destruct (value <=? maxExact)%Z; [|discriminate].
  cbn [option_map orElse isFalsy]. unfold roundsToZero.
  cbn [Z.ltb Z.compare andb]. rewrite orb_false_r.
  destruct (value =? 0)%Z; intros [= <-]; reflexivity.
Qed.

(** C8, as the code has it. The port is the number of PORT unless that
    number counts as false, and 5000 then. So it is 5000 when PORT is
    unset, when PORT is set to a text that is not a number (any text that
    starts with a character no numeric literal starts with, for one), and
    when the number of PORT is zero (a text of white space alone, for one);
    in every other case, signed, fractional, padded or infinite, it is the
    number of PORT. In particular PORT set to the decimal digits of [n],
    with [n] from 1 to 2^53, gives the port [n], and where [port] answers,
    this is its answer. *)
Theorem listen_port_number_or_default (PORT : option string) :
  (PORT = None -> listenPort PORT = Nearest false 5000 0) /\
  (ToNumber PORT = NotANumber -> listenPort PORT = Nearest false 5000 0) /\
  (forall negative significand exponent,
      ToNumber PORT = Nearest negative significand exponent ->
      roundsToZero significand exponent = true ->
      listenPort PORT = Nearest false 5000 0) /\
  (forall negative significand exponent,
      ToNumber PORT = Nearest negative significand exponent ->
      roundsToZero significand exponent = false ->
      listenPort PORT = ToNumber PORT) /\
  (forall negative,
      ToNumber PORT = Infinite negative -> listenPort PORT = ToNumber PORT) /\
  (forall p, port PORT = Some p -> listenPort PORT = Nearest false p 0) /\
  (forall n : nat,
      (0 < n)%nat -> (Z.of_nat n <= maxExact)%Z ->
      PORT = Some (string_of_index n) ->
      listenPort PORT = Nearest false (Z.of_nat n) 0) /\
  (forall c text,
      PORT = Some (String c text) -> opensNoNumber c = true ->
      ToNumber PORT = NotANumber /\ listenPort PORT = Nearest false 5000 0) /\
  (forall text,
      PORT = Some text -> allSpaces text = true ->
      ToNumber PORT = Nearest false 0 0 /\
      listenPort PORT = Nearest false 5000 0).
Proof.
  assert (Hnan : ToNumber PORT = NotANumber ->
                 listenPort PORT = Nearest false 5000 0).
  { intros H. unfold listenPort. rewrite H. reflexivity. }
  assert (Hzero : ToNumber PORT = Nearest false 0 0 ->
                  listenPort PORT = Nearest false 5000 0).
  { intros H. unfold listenPort. rewrite H. reflexivity. }
  split; [|split; [|split; [|split; [|split; [|split; [|split; [|split]]]]]]];
    [| | | | | | | intros c text -> Hc;
                   pose proof (StringToNumber_no_number c text Hc) as E;
                   split; [exact E | apply Hnan, E]
             | intros text -> Hs;
               pose proof (StringToNumber_spaces text Hs) as E;
               split; [exact E | apply Hzero, E] ].
  - intros ->. reflexivity.
  - exact Hnan.
  - intros negative m e H Hz. unfold listenPort. rewrite H.
    cbn [isFalsy]. rewrite Hz. reflexivity.
  - intros negative m e H Hz. unfold listenPort. rewrite H.
    cbn [isFalsy]. rewrite Hz. reflexivity.
  - intros negative H. unfold listenPort. rewrite H. reflexivity.
  - apply port_listenPort.
  - intros n Hpos Hmax ->. apply port_listenPort.
    unfold port. rewrite (Number_decimal n Hmax). simpl.
    destruct (Z.eqb_spec (Z.of_nat n) 0); [lia | reflexivity].
Qed.

Lemma listen_port_number_or_default_witness :
  (ToNumber (Some "abc") = NotANumber /\
   ToNumber (Some "  ") = Nearest false 0 0 /\
   ToNumber (Some "-0") = Nearest true 0 0 /\
   ToNumber (Some " 3000 ") = Nearest false 3000 0 /\
   ToNumber (Some "-5") = Nearest true 5 0 /\
   ToNumber (Some "80.5") = Nearest false 805 (-1) /\
   ToNumber (Some "0x50") = Nearest false 80 0 /\
   ToNumber (Some "Infinity") = Infinite false /\
   port (Some "3000") = Some 3000%Z) /\
  listenPort None = Nearest false 5000 0 /\
  listenPort (Some "abc") = Nearest false 5000 0 /\
  listenPort (Some "  ") = Nearest false 5000 0 /\
  listenPort (Some "-0") = Nearest false 5000 0 /\
  listenPort (Some " 3000 ") = Nearest false 3000 0 /\
  listenPort (Some "-5") = Nearest true 5 0 /\
  listenPort (Some "80.5") = Nearest false 805 (-1) /\
  listenPort (Some "0x50") = Nearest false 80 0 /\
  listenPort (Some "Infinity") = Infinite false /\
  listenPort (Some "3000") = Nearest false 3000 0 /\
  listenPort (Some (string_of_index 3000)) = Nearest false (Z.of_nat 3000) 0.
Proof.
  split; [repeat split; reflexivity|].
  split.
  { apply (proj1 (listen_port_number_or_default None)). reflexivity. }
  split.
  { destruct (listen_port_number_or_default (Some "abc")) as (_ & H & _).
    apply H. reflexivity. }
  split.
  { destruct (listen_port_number_or_default (Some "  "))
      as (_ & _ & H & _).
    apply (H false 0%Z 0%Z); reflexivity. }
  split.
  { destruct (listen_port_number_or_default (Some "-0"))
      as (_ & _ & H & _).
    apply (H true 0%Z 0%Z); reflexivity. }
  split.
  { destruct (listen_port_number_or_default (Some " 3000 "))
      as (_ & _ & _ & H & _).
    rewrite (H false 3000%Z 0%Z); reflexivity. }
  split.
  { destruct (listen_port_number_or_default (Some "-5"))
      as (_ & _ & _ & H & _).
    rewrite (H true 5%Z 0%Z); reflexivity. }
  split.
  { destruct (listen_port_number_or_default (Some "80.5"))
      as (_ & _ & _ & H & _).
    rewrite (H false 805%Z (-1)%Z); reflexivity. }
  split.
  { destruct (listen_port_number_or_default (Some "0x50"))
      as (_ & _ & _ & H & _).
    rewrite (H false 80%Z 0%Z); reflexivity. }
  split.
  { destruct (listen_port_number_or_default (Some "Infinity"))
      as (_ & _ & _ & _ & H & _).
    rewrite (H false); reflexivity. }
  split.
  { destruct (listen_port_number_or_default (Some "3000"))
      as (_ & _ & _ & _ & _ & H & _).
    apply H. reflexivity. }
  destruct (listen_port_number_or_default (Some (string_of_index 3000)))
    as (_ & _ & _ & _ & _ & _ & H & _).
  apply H; [lia | vm_compute; discriminate | reflexivity].
Defined.

(** C8, as stated, fails. With PORT set to the digit 0 the variable is set
    and its number is zero, and the port is 5000. *)
Lemma port_zero_is_default :
  Number (Some "0") = Some (Num 0) /\
  port (Some "0") = Some 5000%Z /\
  port (Some "0") <> Some 0%Z.
Proof. repeat split; discriminate. Qed.

End ServerFacts.

(** ** More on submissions *)

Module SubmissionFacts.

Import Js Regexp App Reading Page FormFacts.

(** X1. A teacher submission with the full name not empty, the email
    matching the pattern, the subject and the employee identifier not empty
    in the form values, and the two inputs they are rendered in not empty,
    puts the new entry first, raises [total] and [teacherCount] by one and
    leaves [studentCount] as it is, whatever the student pair of the buffer
    holds. *)
Theorem valid_teacher_submission (st : AppState) (uuid now : string) :
  v_role (form st) = teacher ->
  is_empty_string (v_fullName (form st)) = false ->
  test emailPattern (v_email (form st)) = true ->
  populated (v_subject (form st)) = true ->
  populated (v_employeeId (form st)) = true ->
  is_empty_string (firstInput (shown st)) = false ->
  is_empty_string (secondInput (shown st)) = false ->
  let before := registrations st in
  let after := registrations (fst (step st (Submit uuid now))) in
  after = registrationOf uuid now (form st) :: before /\
  total (summary after) = S (total (summary before)) /\
  teacherCount (summary after) = S (teacherCount (summary before)) /\
  studentCount (summary after) = studentCount (summary before).
Proof.
  intros Hrole Hname Hemail Hsubject Hid Hfirst Hsecond before after.
  assert (Hv : isValid (form st) (shown st) = true).
  { apply isValid_spec. rewrite Hrole. auto. }
  subst before after. rewrite step_list, Hv. simpl.
  rewrite Hrole. simpl. repeat split; reflexivity.
Qed.

Lemma valid_teacher_submission_witness :
  (v_role (form teacherFilled) = teacher /\
   is_empty_string (v_fullName (form teacherFilled)) = false /\
   test emailPattern (v_email (form teacherFilled)) = true /\
   populated (v_subject (form teacherFilled)) = true /\
   populated (v_employeeId (form teacherFilled)) = true /\
   shown teacherFilled =
   {| firstInput := "Mathematics"; secondInput := "EMP-8820" |} /\
   populated (v_gradeLevel (form teacherFilled)) = true) /\
  let before := registrations teacherFilled in
  let after :=
    registrations (fst (step teacherFilled (Submit "id-1" "1/2/2026"))) in
  after = registrationOf "id-1" "1/2/2026" (form teacherFilled) :: before /\
  total (summary after) = S (total (summary before)) /\
  teacherCount (summary after) = S (teacherCount (summary before)) /\
  studentCount (summary after) = studentCount (summary before).
Proof.
  split; [repeat split; reflexivity|].
  apply (valid_teacher_submission teacherFilled "id-1" "1/2/2026");
    reflexivity.
Defined.

Lemma cons_not_self {A : Type} (x : A) (l : list A) : x :: l <> l.
Proof.
  intros H. apply (f_equal (@length A)) in H. simpl in H. lia.
Qed.

(** X2. A submission adds its entry to the list exactly when the full name
    is not empty, the email matches the pattern, the two fields of the
    selected role are not empty in the form values and the two inputs of
    the role branch are not empty as rendered. In every other case the list
    and the buffer stay as they are. *)
Theorem submission_accepted_exactly (st : AppState) (uuid now : string) :
  let st' := fst (step st (Submit uuid now)) in
  let accepted :=
    is_empty_string (v_fullName (form st)) = false /\
    test emailPattern (v_email (form st)) = true /\
    match v_role (form st) with
    | student =>
        populated (v_gradeLevel (form st)) = true /\
        populated (v_studentId (form st)) = true
    | teacher =>
        populated (v_subject (form st)) = true /\
        populated (v_employeeId (form st)) = true
    end /\
    is_empty_string (firstInput (shown st)) = false /\
    is_empty_string (secondInput (shown st)) = false in
  (registrations st' = registrationOf uuid now (form st) :: registrations st
   <-> accepted) /\
  (registrations st' = registrations st /\ form st' = form st
   <-> ~ accepted).
Proof.
  intros st' accepted. subst st' accepted.
  rewrite <- isValid_spec, step_list, step_submit.
  destruct (isValid (form st) (shown st)) eqn:Hv; cbn [fst].
  - split.
    + split; intros _; reflexivity.
    + split.
      * intros [H _]. exfalso. exact (cons_not_self _ _ H).
      * intros H. exfalso. apply H. reflexivity.
  - split.
    + split; [|discriminate].
      intros H. exfalso. symmetry in H. exact (cons_not_self _ _ H).
    + split; [intros _; discriminate | intros _; split; reflexivity].
Qed.

Lemma submission_accepted_exactly_witness :
  registrations (fst (step jordanFilled (Submit "id-1" "1/2/2026")))
  = [registrationOf "id-1" "1/2/2026" jordan] /\
  registrations (fst (step badEmailFilled (Submit "id-1" "1/2/2026"))) = [] /\
  registrations (fst (step staleGrade (Submit "id-1" "1/2/2026"))) = [].
Proof.
  destruct (submission_accepted_exactly jordanFilled "id-1" "1/2/2026")
    as [[_ Hyes] _].
  destruct (submission_accepted_exactly badEmailFilled "id-1" "1/2/2026")
    as [_ [_ Hno]].
  destruct (submission_accepted_exactly staleGrade "id-1" "1/2/2026")
    as [_ [_ Hstale]].
  split; [|split].
  - apply Hyes. repeat split; reflexivity.
  - apply Hno. intros (_ & H & _). vm_compute in H. discriminate H.
  - apply Hstale. intros (_ & _ & _ & H & _). vm_compute in H.
    discriminate H.
Defined.

(** X3. With the role teacher, a submission whose subject or employee
    identifier is missing or empty is rejected: the list and the buffer stay
    as they are, each of the two that is missing carries its message, and
    the grade level and the student identifier carry none, whatever they
    hold. *)
Theorem teacher_pair_required (st : AppState) (uuid now : string) :
  v_role (form st) = teacher ->
  populated (v_subject (form st)) = false \/
  populated (v_employeeId (form st)) = false ->
  let st' := fst (step st (Submit uuid now)) in
  registrations st' = registrations st /\
  form st' = form st /\
  (populated (v_subject (form st)) = false ->
   errors st' Subject = Some "Subject focus is required") /\
  (populated (v_employeeId (form st)) = false ->
   errors st' EmployeeId = Some "Employee ID is required") /\
  errors st' GradeLevel = None /\
  errors st' StudentId = None.
Proof.
  intros Hrole Hmissing st'.
  assert (Hv : isValid (form st) (shown st) = false).
  { destruct (isValid (form st) (shown st)) eqn:Hv; [|reflexivity].
    apply isValid_spec in Hv. rewrite Hrole in Hv.
    destruct Hv as (_ & _ & (H1 & H2) & _).
    destruct Hmissing; congruence. }
  subst st'. rewrite step_submit, Hv. simpl.
  unfold validate, validateField, elementText. rewrite Hrole. simpl.
  repeat split.
  - destruct (v_subject (form st)) as [[|c s]|]; simpl;
      rewrite ?orb_true_r; intros H; reflexivity || discriminate.
  - destruct (v_employeeId (form st)) as [[|c s]|]; simpl;
      rewrite ?orb_true_r; intros H; reflexivity || discriminate.
Qed.

Lemma teacher_pair_required_witness :
  (v_role (form teacherWithoutSubject) = teacher /\
   populated (v_subject (form teacherWithoutSubject)) = false /\
   firstInput (shown teacherWithoutSubject) = EmptyString /\
   populated (v_employeeId (form teacherWithoutSubject)) = true) /\
  let st' := fst (step teacherWithoutSubject (Submit "id-1" "1/2/2026")) in
  registrations st' = registrations teacherWithoutSubject /\
  form st' = form teacherWithoutSubject /\
  (populated (v_subject (form teacherWithoutSubject)) = false ->
   errors st' Subject = Some "Subject focus is required") /\
  (populated (v_employeeId (form teacherWithoutSubject)) = false ->
   errors st' EmployeeId = Some "Employee ID is required") /\
  errors st' GradeLevel = None /\
  errors st' StudentId = None.
Proof.
  split; [repeat split; reflexivity|].
  apply (teacher_pair_required teacherWithoutSubject "id-1" "1/2/2026").
  - reflexivity.
  - left. reflexivity.
Defined.

(** X4. The messages of the two fields every role has. An empty full name
    carries [Full name is required]; an empty email carries
    [Email is required], and an email that is not empty and does not match
    the pattern carries [Enter a valid email]: the required rule is looked
    at before the pattern. In each case the list stays as it is. *)
Theorem name_and_email_messages (st : AppState) (uuid now : string) :
  let st' := fst (step st (Submit uuid now)) in
  (is_empty_string (v_fullName (form st)) = true ->
   errors st' FullName = Some "Full name is required" /\
   registrations st' = registrations st) /\
  (is_empty_string (v_email (form st)) = true ->
   errors st' Email = Some "Email is required" /\
   registrations st' = registrations st) /\
  (is_empty_string (v_email (form st)) = false ->
   test emailPattern (v_email (form st)) = false ->
   errors st' Email = Some "Enter a valid email" /\
   registrations st' = registrations st).
Proof.
  intros st'. subst st'. rewrite step_submit.
  assert (Hempty : test emailPattern EmptyString = false) by reflexivity.
  split; [|split].
  - intros Hname.
    assert (Hv : isValid (form st) (shown st) = false).
    { destruct (isValid (form st) (shown st)) eqn:Hv; [|reflexivity].
      apply isValid_spec in Hv. destruct Hv as (H & _). congruence. }
    rewrite Hv. simpl. split; [|reflexivity].
    unfold validate, validateField, elementText. simpl.
    rewrite Hname. reflexivity.
  - intros Hemail.
    assert (Hv : isValid (form st) (shown st) = false).
    { destruct (isValid (form st) (shown st)) eqn:Hv; [|reflexivity].
      apply isValid_spec in Hv. destruct Hv as (_ & H & _).
      destruct (v_email (form st)); [congruence | discriminate]. }
    rewrite Hv. simpl. split; [|reflexivity].
    unfold validate, validateField, elementText. simpl.
    rewrite Hemail. reflexivity.
  - intros Hemail Htest.
    assert (Hv : isValid (form st) (shown st) = false).
    { destruct (isValid (form st) (shown st)) eqn:Hv; [|reflexivity].
      apply isValid_spec in Hv. destruct Hv as (_ & H & _). congruence. }
    rewrite Hv. simpl. split; [|reflexivity].
    unfold validate, validateField, elementText. simpl.
    rewrite Hemail, Htest. reflexivity.
Qed.

Lemma name_and_email_messages_witness :
  (is_empty_string (v_fullName (form initialState)) = true /\
   is_empty_string (v_email (form initialState)) = true /\
   is_empty_string (v_email (form badEmailFilled)) = false /\
   test emailPattern (v_email (form badEmailFilled)) = false) /\
  errors (fst (step initialState (Submit "id-1" "1/2/2026"))) FullName
  = Some "Full name is required" /\
  errors (fst (step initialState (Submit "id-1" "1/2/2026"))) Email
  = Some "Email is required" /\
  errors (fst (step badEmailFilled (Submit "id-1" "1/2/2026"))) Email
  = Some "Enter a valid email".
Proof.
  split; [repeat split; reflexivity|].
  destruct (name_and_email_messages initialState "id-1" "1/2/2026")
    as (Hname & Hrequired & _).
  destruct (name_and_email_messages badEmailFilled "id-1" "1/2/2026")
    as (_ & _ & Hpattern).
  split; [|split].
  - apply Hname. reflexivity.
  - apply Hrequired. reflexivity.
  - apply Hpattern; reflexivity.
Defined.

(** X5. Validation does not look at the pair of the other role: replacing
    the grade level and the student identifier of a teacher form (or the
    subject and the employee identifier of a student form) by anything
    changes neither the errors nor whether the submission is accepted. *)
Theorem validation_ignores_other_pair (values : RegistrationFormValues)
    (inputs : BranchInputs) (a b : option string) :
  (forall f,
      validate (setOtherPair values a b) inputs f = validate values inputs f)
  /\ isValid (setOtherPair values a b) inputs = isValid values inputs.
Proof.
  assert (H : forall f,
             validate (setOtherPair values a b) inputs f =
             validate values inputs f).
  { intros f. unfold setOtherPair, validate.
    destruct (v_role values) eqn:Hrole; simpl; rewrite ?Hrole;
      destruct f; reflexivity. }
  split; [exact H|].
  unfold isValid, allFields. simpl. rewrite !H. reflexivity.
Qed.

Lemma blank_invalid (r : Role) (inputs : BranchInputs) :
  isValid (blank r) inputs = false.
Proof. destruct r; reflexivity. Qed.

(** X6. Submitting twice in a row registers once: after a submission that
    passes validation the buffer is blank, so a second submission with no
    input in between is rejected, with the name and the email in error, and
    the list holds the one new entry. *)
Theorem second_submission_rejected (st : AppState)
    (uuid1 now1 uuid2 now2 : string) :
  isValid (form st) (shown st) = true ->
  let st' := run st [Submit uuid1 now1; Submit uuid2 now2] in
  registrations st' = registrationOf uuid1 now1 (form st) :: registrations st
  /\ form st' = blank (v_role (form st))
  /\ errors st' FullName = Some "Full name is required"
  /\ errors st' Email = Some "Email is required".
Proof.
  intros Hv st'. subst st'. cbn [run].
  rewrite (step_submit st), Hv. cbn [fst].
  destruct (renderForm_submitted uuid1 now1 st) as (Hform & _).
  rewrite step_submit, Hform, blank_invalid. cbn [fst].
  unfold refused. cbn [registrations form errors].
  rewrite Hform, renderForm_registrations.
  repeat split.
Qed.

Lemma second_submission_rejected_witness :
  isValid (form jordanFilled) (shown jordanFilled) = true /\
  let st' :=
    run jordanFilled [Submit "id-1" "1/2/2026"; Submit "id-2" "1/2/2026"] in
  registrations st' =
  registrationOf "id-1" "1/2/2026" (form jordanFilled)
  :: registrations jordanFilled
  /\ form st' = blank (v_role (form jordanFilled))
  /\ errors st' FullName = Some "Full name is required"
  /\ errors st' Email = Some "Email is required".
Proof.
  split; [reflexivity|].
  apply (second_submission_rejected jordanFilled
           "id-1" "1/2/2026" "id-2" "1/2/2026").
  reflexivity.
Defined.

End SubmissionFacts.

(** ** A session: the list over a sequence of events *)

From Stdlib Require Import Permutation.

Module SessionFacts.

Import Js Regexp App Reading Page FormFacts.

Lemma step_registrations (st : AppState) (e : Event) :
  registrations (fst (step st e)) =
  rev (acceptedEntries st [e]) ++ registrations st.
Proof.
  rewrite step_list.
  destruct e as [r|f text|uuid now|created today]; simpl acceptedEntries;
    try reflexivity.
  destruct (isValid (form st) (shown st)); reflexivity.
Qed.

Lemma acceptedEntries_length (events : list Event) (st : AppState) :
  length (acceptedEntries st events) = validSubmissions st events.
Proof.
  revert st. induction events as [|e events IH]; intros st; [reflexivity|].
  cbn [acceptedEntries validSubmissions].
  rewrite length_app, IH. f_equal.
  destruct e; try reflexivity.
  destruct (isValid (form st) (shown st)); reflexivity.
Qed.

(** X7. The list only grows at its head. After any sequence of events the
    list is the entries of the submissions that passed validation, newest
    first, followed by the list as it was before: no event changes, moves
    or removes an entry that is in the list. *)
Theorem list_grows_at_head (events : list Event) (st : AppState) :
  registrations (run st events) =
  rev (acceptedEntries st events) ++ registrations st /\
  length (acceptedEntries st events) = validSubmissions st events.
Proof.
  split; [|apply acceptedEntries_length].
  revert st. induction events as [|e events IH]; intros st; [reflexivity|].
  cbn [run acceptedEntries]. rewrite IH, step_registrations.
  cbn [acceptedEntries]. rewrite app_nil_r, rev_app_distr, app_assoc.
  reflexivity.
Qed.

Lemma submittedIds_ids (events : list Event) (st : AppState) :
  NoDup (submittedIds events ++ map id (registrations st)) ->
  NoDup (map id (registrations (run st events))).
Proof.
  revert st. induction events as [|e events IH]; intros st H.
  - exact H.
  - cbn [run]. apply IH. rewrite step_list.
    destruct e as [r|f text|uuid now|created today]; cbn [submittedIds] in H;
      try exact H.
    destruct (isValid (form st) (shown st)).
    + cbn [map id registrationOf].
      apply (Permutation_NoDup (l := uuid :: submittedIds events ++
                                       map id (registrations st)));
        [apply Permutation_middle | exact H].
    + inversion H; assumption.
Qed.

(** X8. The keys of the list are distinct when the identifiers the host
    hands out are: if no two submissions of a session get the same
    identifier, no two entries of the list have the same [id]. *)
Theorem ids_distinct (events : list Event) :
  NoDup (submittedIds events) ->
  NoDup (map id (registrations (run initialState events))) /\
  NoDup (map item_key (map listItem (registrations (run initialState events)))).
Proof.
  intros H.
  assert (Hids : NoDup (map id (registrations (run initialState events)))).
  { apply submittedIds_ids. simpl. rewrite app_nil_r. exact H. }
  split; [exact Hids|].
  rewrite map_map. exact Hids.
Qed.

Lemma ids_distinct_witness :
  NoDup (submittedIds twoSubmissions) /\
  map id (registrations (run initialState twoSubmissions)) = ["id-2"; "id-1"] /\
  NoDup (map id (registrations (run initialState twoSubmissions))).
Proof.
  assert (H : NoDup (submittedIds twoSubmissions)).
  { vm_compute. repeat constructor; simpl; intuition discriminate. }
  split; [exact H|]. split; [reflexivity|].
  exact (proj1 (ids_distinct twoSubmissions H)).
Defined.

(** X9. What the page shows follows the submissions made. The report button
    is disabled, and the notice is shown in place of the list, exactly
    while no submission has passed validation; otherwise the list section
    has one article per entry, in the order of the list, keyed by the
    entry's [id], as many as [summary.total]. *)
Theorem page_follows_submissions (events : list Event) :
  let registered := registrations (run initialState events) in
  (downloadDisabled registered = true <->
   validSubmissions initialState events = 0) /\
  ((exists text, listView registered = EmptyNotice text) <->
   validSubmissions initialState events = 0) /\
  (forall items,
      listView registered = Articles items ->
      items = map listItem registered /\
      length items = total (summary registered) /\
      map item_key items = map id registered /\
      0 < validSubmissions initialState events).
Proof.
  intros registered.
  assert (Hlen : length registered = validSubmissions initialState events).
  { subst registered. rewrite length_after_run. reflexivity. }
  unfold downloadDisabled, listView. rewrite Hlen.
  destruct (Nat.eqb_spec (validSubmissions initialState events) 0) as [E|E].
  - split; [tauto|]. split.
    + split; [intros _; exact E | intros _; eexists; reflexivity].
    + intros items H. discriminate H.
  - split; [split; [discriminate | contradiction]|]. split.
    + split; [intros [text H]; discriminate H | contradiction].
    + intros items H. injection H as <-.
      repeat split.
      * rewrite length_map. reflexivity.
      * rewrite map_map. reflexivity.
      * lia.
Qed.

Lemma page_follows_submissions_witness :
  validSubmissions initialState twoSubmissions = 2 /\
  downloadDisabled (registrations (run initialState twoSubmissions)) = false /\
  (forall items,
      listView (registrations (run initialState twoSubmissions))
      = Articles items ->
      length items = 2) /\
  downloadDisabled (registrations (run initialState jordanInputs)) = true.
Proof.
  destruct (page_follows_submissions twoSubmissions) as (_ & _ & Hitems).
  destruct (page_follows_submissions jordanInputs) as (Hoff & _).
  split; [reflexivity|]. split; [reflexivity|]. split.
  - intros items H. destruct (Hitems items H) as (_ & Hlen & _).
    rewrite Hlen. reflexivity.
  - apply Hoff. reflexivity.
Defined.

End SessionFacts.

(** ** The email rule *)

Module EmailFacts.

Import Js Regexp App Reading StringFacts RegexpFacts ReportFacts.

(** X10. The email rule accepts exactly the texts that hold, somewhere, a
    word, an at sign, a word, a dot and a word, a word being one or more
    characters none of which is white space. *)
Theorem email_rule_meaning (s : string) :
  test emailPattern s = true <->
  exists a l d t b,
    s = (a ++ l ++ "@" ++ d ++ "." ++ t ++ b)%string /\
    word l = true /\ word d = true /\ word t = true.
Proof. exact (emailPattern_spec s). Qed.

Lemma email_rule_meaning_witness :
  test emailPattern "jordan@school.edu" = true /\
  exists a l d t b,
    "jordan@school.edu" = (a ++ l ++ "@" ++ d ++ "." ++ t ++ b)%string /\
    word l = true /\ word d = true /\ word t = true.
Proof.
  split; [reflexivity|].
  apply (proj1 (email_rule_meaning "jordan@school.edu")). reflexivity.
Defined.

(** X11. The email rule is not anchored: a text that holds an accepted text
    is accepted, whatever comes before and after it, white space and
    further at signs included. *)
Theorem email_rule_not_anchored (s before after : string) :
  test emailPattern s = true ->
  test emailPattern (before ++ s ++ after) = true.
Proof.
  intros H. apply test_spec in H. destruct H as (a & p & q & -> & Hp).
  apply test_spec. exists (before ++ a)%string, p, (q ++ after)%string.
  split; [|exact Hp]. rewrite !append_assoc. reflexivity.
Qed.

Lemma email_rule_not_anchored_witness :
  test emailPattern "a@b.c" = true /\
  test emailPattern ("not an email " ++ "a@b.c" ++ " @@ at all") = true.
Proof.
  split; [reflexivity|].
  apply (email_rule_not_anchored "a@b.c" "not an email " " @@ at all").
  reflexivity.
Defined.

Lemma length_append (a b : string) :
  String.length (a ++ b) = String.length a + String.length b.
Proof. induction a as [|c a IH]; simpl; [reflexivity | rewrite IH; reflexivity]. Qed.

Lemma word_length (s : string) : word s = true -> 1 <= String.length s.
Proof. destruct s; simpl; [discriminate | lia]. Qed.

(** X12. What the email rule asks for at least: an accepted text has an at
    sign and a dot in it and is five characters long or longer. So a text
    without an at sign, or without a dot, or shorter than five characters,
    is rejected. *)
Theorem email_rule_needs (s : string) :
  test emailPattern s = true ->
  includes s "@" = true /\
  includes s "." = true /\
  5 <= String.length s.
Proof.
  intros H. apply emailPattern_spec in H.
  destruct H as (a & l & d & t & b & -> & Hl & Hd & Ht).
  split; [|split].
  - apply includes_append_r, includes_append_r.
    apply (includes_here "@").
  - do 4 apply includes_append_r. apply (includes_here ".").
  - rewrite !length_append.
    apply word_length in Hl, Hd, Ht. simpl. lia.
Qed.

Lemma email_rule_needs_witness :
  test emailPattern "a@b.c" = true /\
  includes "a@b.c" "@" = true /\
  includes "a@b.c" "." = true /\
  5 <= String.length "a@b.c".
Proof.
  split; [reflexivity|].
  apply (email_rule_needs "a@b.c"). reflexivity.
Defined.

End EmailFacts.

(** ** More on the report *)

Module ReportMoreFacts.

Import Js App Reading Page StringFacts ReportFacts.



End ReportMoreFacts.

(** ** More on the server port *)

Module ServerMoreFacts.

Import Server.

Lemma digitValue_range (c : ascii) (d : Z) :
  digitValue c = Some d -> (0 <= d <= 9)%Z.
Proof.
  unfold digitValue.
  destruct ((48 <=? nat_of_ascii c)%nat && (nat_of_ascii c <=? 57)%nat)
    eqn:H; [|discriminate].
  intros [= <-]. apply andb_true_iff in H. destruct H as [H1 H2].
  apply Nat.leb_le in H1, H2. lia.
Qed.

Lemma decimalValue_nonneg (text : string) (acc value : Z) :
  (0 <= acc)%Z -> decimalValue acc text = Some value -> (0 <= value)%Z.
Proof.
  revert acc. induction text as [|c text IH]; intros acc Hacc H.
  - injection H as <-. exact Hacc.
  - cbn [decimalValue] in H.
    destruct (digitValue c) as [d|] eqn:Hd; [|discriminate].
    apply digitValue_range in Hd.
    apply (IH (10 * acc + d)%Z); [lia | exact H].
Qed.

(** X14. The port is never zero: whatever PORT holds, where [Number] is
    covered, the port is a positive integer, at most 2^53. The server
    therefore never asks the system for an arbitrary free port. *)
Theorem port_positive (PORT : option string) (p : Z) :
  port PORT = Some p -> (0 < p <= maxExact)%Z.
Proof.
  unfold port, Number.
  assert (Hmax : (0 < 5000 <= maxExact)%Z)
    by (vm_compute; split; [reflexivity | discriminate]).
  destruct PORT as [text|]; [|intros [= <-]; exact Hmax].
  destruct (decimalValue 0 text) as [value|] eqn:Hvalue; [|discriminate].
  apply decimalValue_nonneg in Hvalue; [|lia].
  destruct (Z.leb_spec value maxExact) as [Hle|_]; [|discriminate].
  simpl. destruct (Z.eqb_spec value 0) as [_|Hnz]; intros [= <-];
    [exact Hmax | lia].
Qed.

Lemma port_positive_witness :
  port (Some "000") = Some 5000%Z /\ (0 < 5000 <= maxExact)%Z.
Proof.
  split; [reflexivity|].
  apply (port_positive (Some "000") 5000). reflexivity.
Defined.

End ServerMoreFacts.
